(** * Vision inference server (inference-server/server.py)

    A shallow embedding of the Flask request handlers of the drone camera
    inference server, and the properties of its decoder, resizer, detector
    adapter and endpoints.

    Python values that cross the HTTP boundary are JSON values; code that
    can raise returns in an error monad; double-precision arithmetic is the
    binary64 instance of [SpecFloat]; Pillow, base64 and the YOLO model are
    external collaborators, taken as the fields of a class.  Logging is the
    only side effect of the handlers and is left out. *)

From Stdlib Require Import ZArith List String Ascii Bool Lia.
From Stdlib Require Import Strings.Byte.
From Stdlib Require Import SpecFloat.

Set Warnings "-register-all".
Import ListNotations.
Open Scope string_scope.
Open Scope Z_scope.

(** ** Python exceptions

    [exn] stands for the instances of Python's [Exception]: what
    [except Exception as e] catches.  [str e] is the message. *)

Inductive exn : Type :=
| Exception (cls : string) (msg : string).

Definition str (e : exn) : string :=
  match e with Exception _ msg => msg end.

Inductive result (A : Type) : Type :=
| ok (a : A)
| raise (e : exn).

Arguments ok {A} a.
Arguments raise {A} e.

Definition bind {A B : Type} (c : result A) (k : A -> result B) : result B :=
  match c with
  | ok a => k a
  | raise e => raise e
  end.

Notation "x <- c ;; k" := (bind c (fun x => k))
  (at level 61, c at next level, right associativity).

(** [try: body except Exception as e: handler e] *)
Definition try_except {A : Type} (body : result A) (handler : exn -> result A)
  : result A :=
  match body with
  | ok a => ok a
  | raise e => handler e
  end.

(** ** Double-precision numbers *)

Definition prec : Z := 53.
Definition emax : Z := 1024.

Definition float : Type := spec_float.

(** An integer seen as an unrounded binary number, exponent 0. *)
Definition exact_of_int (z : Z) : float :=
  match z with
  | Z0 => S754_zero false
  | Zpos p => S754_finite false p 0
  | Zneg p => S754_finite true p 0
  end.

(** [a / b] on Python ints: the correctly rounded quotient. *)
Definition int_truediv (a b : Z) : result float :=
  if b =? 0 then raise (Exception "ZeroDivisionError" "division by zero")
  else
    match SFdiv prec emax (exact_of_int a) (exact_of_int b) with
    | S754_infinity _ =>
        raise (Exception "OverflowError"
                 "integer division result too large for a float")
    | f => ok f
    end.

(** A decimal literal [num / den]: the double nearest to it. *)
Definition float_literal (num den : Z) : float :=
  SFdiv prec emax (exact_of_int num) (exact_of_int den).

(** The conversion of an int operand of a mixed int/float operation. *)
Definition int_to_float (z : Z) : result float :=
  match binary_normalize prec emax z 0 false with
  | S754_infinity _ =>
      raise (Exception "OverflowError" "int too large to convert to float")
  | f => ok f
  end.

Definition float_mul (x y : float) : float := SFmul prec emax x y.

(** [int(x)] on a float: truncation toward zero. *)
Definition float_to_int (x : float) : result Z :=
  match x with
  | S754_nan =>
      raise (Exception "ValueError" "cannot convert float NaN to integer")
  | S754_infinity _ =>
      raise (Exception "OverflowError"
               "cannot convert float infinity to integer")
  | S754_zero _ => ok 0
  | S754_finite s m e => ok (cond_Zopp s (Z.shiftl (Zpos m) e))
  end.

(** [dim * ratio] for an int [dim] and a float [ratio]. *)
Definition int_mul_float (dim : Z) (ratio : float) : result float :=
  d <- int_to_float dim ;;
  ok (float_mul d ratio).

(** ** Python strings *)

(** [s.split(sep)] for a one-character separator. *)
Fixpoint split (sep : ascii) (s : string) : list string :=
  match s with
  | EmptyString => [EmptyString]
  | String c rest =>
      if Ascii.eqb c sep then EmptyString :: split sep rest
      else
        match split sep rest with
        | [] => [String c EmptyString]
        | seg :: segs => String c seg :: segs
        end
  end.

(** [needle in hay] on strings: substring test. *)
Fixpoint str_contains (needle hay : string) : bool :=
  String.prefix needle hay
  || match hay with
     | EmptyString => false
     | String _ rest => str_contains needle rest
     end.

(** [l[i]] on a list. *)
Definition list_getitem {A : Type} (l : list A) (i : nat) : result A :=
  match nth_error l i with
  | Some a => ok a
  | None => raise (Exception "IndexError" "list index out of range")
  end.

(** ** JSON values: what [request.json] yields and [jsonify] takes *)

Inductive json : Type :=
| JNone
| JBool (b : bool)
| JInt (z : Z)
| JFloat (f : float)
| JStr (s : string)
| JList (l : list json)
| JDict (kv : list (string * json)).

Definition float_is_zero (f : float) : bool :=
  match f with S754_zero _ => true | _ => false end.

(** Truth value of a Python object. *)
Definition truthy (v : json) : bool :=
  match v with
  | JNone => false
  | JBool b => b
  | JInt z => negb (z =? 0)
  | JFloat f => negb (float_is_zero f)
  | JStr s => negb (String.eqb s "")
  | JList l => match l with [] => false | _ => true end
  | JDict kv => match kv with [] => false | _ => true end
  end.

Fixpoint dict_get (kv : list (string * json)) (key : string) : option json :=
  match kv with
  | [] => None
  | (k, v) :: rest => if String.eqb k key then Some v else dict_get rest key
  end.

Definition is_str (key : string) (v : json) : bool :=
  match v with
  | JStr s => String.eqb s key
  | _ => false
  end.

Definition type_name (v : json) : string :=
  match v with
  | JNone => "NoneType"
  | JBool _ => "bool"
  | JInt _ => "int"
  | JFloat _ => "float"
  | JStr _ => "str"
  | JList _ => "list"
  | JDict _ => "dict"
  end.

(** [key in v] for a string [key]. *)
Definition py_in (key : string) (v : json) : result bool :=
  match v with
  | JDict kv => ok (match dict_get kv key with Some _ => true | None => false end)
  | JList l => ok (existsb (is_str key) l)
  | JStr s => ok (str_contains key s)
  | _ => raise (Exception "TypeError"
                  ("argument of type '" ++ type_name v ++ "' is not iterable"))
  end.

(** [v[key]] for a string [key]. *)
Definition getitem (v : json) (key : string) : result json :=
  match v with
  | JDict kv =>
      match dict_get kv key with
      | Some x => ok x
      | None => raise (Exception "KeyError" ("'" ++ key ++ "'"))
      end
  | JList _ =>
      raise (Exception "TypeError"
               "list indices must be integers or slices, not str")
  | JStr _ => raise (Exception "TypeError" "string indices must be integers")
  | _ => raise (Exception "TypeError"
                  ("'" ++ type_name v ++ "' object is not subscriptable"))
  end.

(** [v.get(key, None)] *)
Definition dict_get_default (v : json) (key : string) : result json :=
  match v with
  | JDict kv =>
      ok (match dict_get kv key with Some x => x | None => JNone end)
  | _ => raise (Exception "AttributeError"
                  ("'" ++ type_name v ++ "' object has no attribute 'get'"))
  end.

(** ** External collaborators

    Pillow's images, [base64.b64decode] and [Image.open]. *)

Class Externals : Type := {
  image : Type;
  Image_size : image -> Z * Z;
  b64decode : string -> result (list byte);
  Image_open : list byte -> result image;
  Image_resize : image -> Z * Z -> result image
}.

(** What a YOLO call returns: per result the class names and the boxes,
    each box with its one-row tensors. *)
Record Box : Type := {
  cls : list float;
  conf : list float;
  xyxy : list (list float);
  xywhn : list (list float)
}.

Record Result : Type := {
  names : list (Z * string);
  boxes : list Box
}.

Fixpoint names_get (d : list (Z * string)) (k : Z) : result string :=
  match d with
  | [] => raise (Exception "KeyError" "class id")
  | (i, s) :: rest => if i =? k then ok s else names_get rest k
  end.

(** A response: [jsonify(body), status]. *)
Record response : Type := {
  status : Z;
  body : json
}.

Definition jsonify (fields : list (string * json)) : response :=
  {| status := 200; body := JDict fields |}.

Definition with_status (r : response) (code : Z) : response :=
  {| status := code; body := body r |}.

Record Request : Type := {
  request_json : result json
}.

Section Server.

Context {E : Externals}.

(** [model(image, conf=.., iou=..)] *)
Definition Model : Type := image -> float -> float -> result (list Result).

(** The module-level state after start-up. *)
Record Globals : Type := {
  MODEL_AVAILABLE : bool;
  model : option Model
}.

(** Lines 16-38: import ultralytics, then load the weights. *)
Inductive import_outcome : Type :=
| ImportError
| Imported (YOLO : string -> result Model).

Definition startup (imp : import_outcome) : Globals :=
  match imp with
  | ImportError => {| MODEL_AVAILABLE := false; model := None |}
  | Imported YOLO =>
      match YOLO "yolov8n.pt" with
      | ok m => {| MODEL_AVAILABLE := true; model := Some m |}
      | raise _ => {| MODEL_AVAILABLE := false; model := None |}
      end
  end.

(** The value of [image_data] handed to [base64.b64decode] (lines 45-46). *)
Definition b64_input (image_data : json) : result json :=
  has_comma <- py_in "," image_data ;;
  if has_comma then
    match image_data with
    | JStr s => parts <- ok (split "," s) ;;
                part <- list_getitem parts 1 ;;
                ok (JStr part)
    | _ => raise (Exception "AttributeError"
                    ("'" ++ type_name image_data
                         ++ "' object has no attribute 'split'"))
    end
  else ok image_data.

Definition base64_b64decode (v : json) : result (list byte) :=
  match v with
  | JStr s => b64decode s
  | _ => raise (Exception "TypeError"
                  ("argument should be a bytes-like object or ASCII string, not '"
                     ++ type_name v ++ "'"))
  end.

Definition decode_image (image_data : json) : result (option image) :=
  try_except
    (image_data <- b64_input image_data ;;
     image_bytes <- base64_b64decode image_data ;;
     image <- Image_open image_bytes ;;
     ok (Some image))
    (fun e => ok None).

(** The literals [0.25] and [0.45]. *)
Definition conf_threshold : float := float_literal 25 100.
Definition iou_threshold : float := float_literal 45 100.

Definition detection_of_box (result_names : list (Z * string)) (box : Box)
  : result json :=
  c <- list_getitem (cls box) 0 ;;
  k <- float_to_int c ;;
  name <- names_get result_names k ;;
  p <- list_getitem (conf box) 0 ;;
  b <- list_getitem (xyxy box) 0 ;;
  bn <- list_getitem (xywhn box) 0 ;;
  ok (JDict [("class", JStr name);
             ("confidence", JFloat p);
             ("bbox", JList (map JFloat b));
             ("bbox_normalized", JList (map JFloat bn))]).

Fixpoint for_boxes (result_names : list (Z * string)) (bs : list Box)
    (detections : list json) : result (list json) :=
  match bs with
  | [] => ok detections
  | box :: rest =>
      detection <- detection_of_box result_names box ;;
      for_boxes result_names rest (detections ++ [detection])%list
  end.

Fixpoint for_results (results : list Result) (detections : list json)
  : result (list json) :=
  match results with
  | [] => ok detections
  | r :: rest =>
      detections <- for_boxes (names r) (boxes r) detections ;;
      for_results rest detections
  end.

Definition detect_objects (g : Globals) (img : image) : result (list json) :=
  match MODEL_AVAILABLE g, model g with
  | true, Some m =>
      try_except
        (results <- m img conf_threshold iou_threshold ;;
         for_results results [])
        (fun e => ok [])
  | _, _ => ok []
  end.

Definition health (g : Globals) : response :=
  jsonify [("status", JStr "healthy");
           ("model_loaded",
             JBool (MODEL_AVAILABLE g
                    && match model g with Some _ => true | None => false end))].

(** [not data or 'image' not in data] *)
Definition no_image (data : json) : result bool :=
  if negb (truthy data) then ok true
  else present <- py_in "image" data ;; ok (negb present).

Definition error_response (msg : string) (code : Z) : response :=
  with_status (jsonify [("error", JStr msg)]) code.

Definition detect (g : Globals) (req : Request) : result response :=
  try_except
    (data <- request_json req ;;
     missing <- no_image data ;;
     if missing then ok (error_response "No image data provided" 400)
     else
       image_data <- getitem data "image" ;;
       image <- decode_image image_data ;;
       match image with
       | None => ok (error_response "Failed to decode image" 400)
       | Some image =>
           detections <- detect_objects g image ;;
           ok (jsonify [("success", JBool true);
                        ("detections", JList detections);
                        ("count", JInt (Z.of_nat (List.length detections)))])
       end)
    (fun e => ok (error_response (str e) 500)).

(** [tuple(int(dim * ratio) for dim in image.size)] with
    [ratio = max_size / max(image.size)] (lines 146-147). *)
Definition scaled (ratio : float) (dim : Z) : result Z :=
  x <- int_mul_float dim ratio ;;
  float_to_int x.

Definition new_size (max_size : Z) (size : Z * Z) : result (Z * Z) :=
  ratio <- int_truediv max_size (Z.max (fst size) (snd size)) ;;
  w <- scaled ratio (fst size) ;;
  h <- scaled ratio (snd size) ;;
  ok (w, h).

(** Lines 144-148: the image handed to the detector by the stream path. *)
Definition stream_resize (img : image) : result image :=
  let max_size := 640 in
  if max_size <? Z.max (fst (Image_size img)) (snd (Image_size img)) then
    size <- new_size max_size (Image_size img) ;;
    Image_resize img size
  else ok img.

Definition detect_stream (g : Globals) (req : Request) : result response :=
  try_except
    (data <- request_json req ;;
     missing <- no_image data ;;
     if missing then ok (error_response "No image data provided" 400)
     else
       image_data <- getitem data "image" ;;
       image <- decode_image image_data ;;
       match image with
       | None => ok (error_response "Failed to decode image" 400)
       | Some image =>
           image <- stream_resize image ;;
           detections <- detect_objects g image ;;
           timestamp <- dict_get_default data "timestamp" ;;
           ok (jsonify [("detections", JList detections);
                        ("count", JInt (Z.of_nat (List.length detections)));
                        ("timestamp", timestamp)])
       end)
    (fun e => ok (error_response (str e) 500)).

(** The exception [e] is the one raised on the way of [/detect]: by
    [request.json], by the test of the body, or by [data['image']].  The
    decoder and the adapter catch their own. *)
Definition detect_raises (req : Request) (e : exn) : Prop :=
  request_json req = raise e
  \/ exists data,
       request_json req = ok data
       /\ (no_image data = raise e
           \/ (no_image data = ok false /\ getitem data "image" = raise e)).

(** On the way of [/detect/stream] the resizer can raise as well. *)
Definition detect_stream_raises (req : Request) (e : exn) : Prop :=
  detect_raises req e
  \/ exists data v img,
       request_json req = ok data
       /\ no_image data = ok false
       /\ getitem data "image" = ok v
       /\ decode_image v = ok (Some img)
       /\ stream_resize img = raise e.

End Server.

(** ** The specification's reading of the decoder and the resizer *)

(** What follows the first occurrence of [sep] in [s], if there is one:
    the text the specification has the decoder keep. *)
Fixpoint after_first (sep : ascii) (s : string) : option string :=
  match s with
  | EmptyString => None
  | String c rest => if Ascii.eqb c sep then Some rest else after_first sep rest
  end.

(** [n] is the integer nearest to [max_size * dim / longer]: the rounding
    the specification has the resizer apply. *)
Definition nearest_pixel (max_size longer dim n : Z) : Prop :=
  2 * Z.abs (n * longer - max_size * dim) <= longer.

(** ** A reference collaborator

    Used to run the handlers on concrete requests: an image is its size,
    base64 decoding yields one byte per character, every non-empty payload
    opens as an image of size [size], and resizing yields the requested
    size but refuses an empty one, as Pillow does. *)
Definition fixed_size_images (size : Z * Z) : Externals := {|
  image := Z * Z;
  Image_size := fun img => img;
  b64decode := fun s => ok (map byte_of_ascii (list_ascii_of_string s));
  Image_open := fun bytes =>
    match bytes with
    | [] => raise (Exception "UnidentifiedImageError"
                     "cannot identify image file")
    | _ => ok size
    end;
  Image_resize := fun _ new_size =>
    if (fst new_size <? 1) || (snd new_size <? 1)
    then raise (Exception "ValueError" "height and width must be > 0")
    else ok new_size
|}.

(** Start-up without the detection library, over the reference
    collaborator. *)
Definition no_model (size : Z * Z) : @Globals (fixed_size_images size) :=
  @startup (fixed_size_images size) ImportError.

(** A loaded model that finds one person in every image. *)
Definition person_box : Box := {|
  cls := [S754_zero false];
  conf := [float_literal 9 10];
  xyxy := [[float_literal 10 1; float_literal 20 1;
            float_literal 110 1; float_literal 220 1]];
  xywhn := [[float_literal 1 4; float_literal 1 2;
             float_literal 1 8; float_literal 1 4]]
|}.

Definition person_model (size : Z * Z) : @Globals (fixed_size_images size) :=
  @startup (fixed_size_images size)
    (Imported (fun _ => ok (fun _ _ _ =>
       ok [{| names := [(0, "person")]; boxes := [person_box] |}]))).

(** A model call whose second box carries a class id that has no name. *)
Definition stray_results : list Result :=
  [{| names := [(0, "person")];
      boxes := [person_box;
                {| cls := [float_literal 7 1];
                   conf := [float_literal 1 2];
                   xyxy := [[]];
                   xywhn := [[]] |}] |}].

Definition stray_model (size : Z * Z) : @Globals (fixed_size_images size) :=
  @startup (fixed_size_images size)
    (Imported (fun _ => ok (fun _ _ _ => ok stray_results))).

(** The request [{"image": "AAAA", "timestamp": 12345}]. *)
Definition stamped_fields : list (string * json) :=
  [("image", JStr "AAAA"); ("timestamp", JInt 12345)].

Definition stamped_request : Request :=
  {| request_json := ok (JDict stamped_fields) |}.


(** Every box a model call returned, in the order the adapter visits
    them, each with the class names of its result. *)
Definition all_boxes (results : list Result) : list (list (Z * string) * Box) :=
  flat_map (fun r => map (pair (names r)) (boxes r)) results.


(** ** Rounding with guard and sticky bits

    The right shift of [SpecFloat], followed for a non-negative numerator
    [A] over a positive denominator [D]: after [k] shifts the record holds
    the quotient of [A] by [D * 2 ^ k], the guard bit says whether the
    remainder reaches half of the divisor, and the sticky bit whether it is
    neither zero nor exactly half. *)
Definition located (A D k : Z) (mrs : shr_record) : Prop :=
  shr_m mrs = A / (D * 2 ^ k)
  /\ shr_r mrs = (D * 2 ^ k <=? 2 * (A mod (D * 2 ^ k)))
  /\ shr_s mrs = negb ((2 * (A mod (D * 2 ^ k))) mod (D * 2 ^ k) =? 0).


(** * Rounding to binary64 *)

Section Rounding.

(** The definitions of [SpecFloat] are written with the integer operations
    of the core library; these equations restate the ones used below with
    the operations of [ZArith], at binary64. *)

Lemma new_location_eq D R :
  new_location D R
  = if R =? 0 then loc_Exact
    else if Z.even D then loc_Inexact (2 * R ?= D)
         else loc_Inexact match 2 * R + 1 ?= D with Gt => Gt | _ => Lt end.
Proof.
  unfold new_location, new_location_even, new_location_odd.
  change (IntDef.Z.even D) with (Z.even D).
  change (IntDef.Z.eqb R 0) with (R =? 0).
  destruct (Z.even D), (R =? 0); reflexivity.
Qed.

Lemma round_nearest_even_eq m l :
  round_nearest_even m l
  = match l with
    | loc_Exact | loc_Inexact Lt => m
    | loc_Inexact Eq => if Z.even m then m else m + 1
    | loc_Inexact Gt => m + 1
    end.
Proof. destruct l as [|[]]; reflexivity. Qed.

Lemma shr_eq mrs e n :
  shr mrs e n
  = match n with
    | Zpos p => (iter_pos shr_1 p mrs, e + n)
    | _ => (mrs, e)
    end.
Proof. reflexivity. Qed.

Lemma shr_fexp_eq m e l :
  shr_fexp prec emax m e l
  = shr (shr_record_of_loc m l) e (Z.max (Zdigits2 m + e - 53) (-1074) - e).
Proof. reflexivity. Qed.

Lemma binary_round_aux_eq sx mx ex lx :
  binary_round_aux prec emax sx mx ex lx
  = let '(mrs', e') := shr_fexp prec emax mx ex lx in
    let '(mrs'', e'') :=
      shr_fexp prec emax
        (round_nearest_even (shr_m mrs') (loc_of_shr_record mrs')) e' loc_Exact in
    match shr_m mrs'' with
    | Z0 => S754_zero sx
    | Zpos m => if e'' <=? 971 then S754_finite sx m e'' else S754_infinity sx
    | Zneg _ => S754_nan
    end.
Proof. reflexivity. Qed.

Lemma shr_1_nonneg m r s :
  0 <= m ->
  shr_1 {| shr_m := m; shr_r := r; shr_s := s |}
  = {| shr_m := m / 2; shr_r := Z.odd m; shr_s := r || s |}.
Proof.
  intros Hm. destruct m as [|p|p]; [reflexivity| |lia].
  rewrite <- Z.div2_div. destruct p; reflexivity.
Qed.

Lemma div_mod_double A P :
  0 < P -> 0 <= A ->
  A / (P * 2) = A / P / 2
  /\ A mod (P * 2) = A mod P + P * ((A / P) mod 2).
Proof.
  intros HP HA. split.
  - rewrite Z.div_div by lia. reflexivity.
  - rewrite Z.rem_mul_r by lia. reflexivity.
Qed.

Lemma located_step A D k mrs :
  0 < D -> 0 <= k -> 0 <= A ->
  located A D k mrs -> located A D (k + 1) (shr_1 mrs).
Proof.
  intros HD Hk HA (Hm & Hr & Hs).
  destruct mrs as [m r s]; cbn [shr_m shr_r shr_s] in Hm, Hr, Hs.
  assert (HP : 0 < D * 2 ^ k)
    by (apply Z.mul_pos_pos; [lia | apply Z.pow_pos_nonneg; lia]).
  unfold located.
  rewrite Z.pow_add_r, Z.pow_1_r, Z.mul_assoc by lia.
  set (P := D * 2 ^ k) in *.
  assert (Hm0 : 0 <= m) by (subst m; apply Z.div_pos; lia).
  rewrite shr_1_nonneg by exact Hm0.
  destruct (div_mod_double A P HP HA) as [Hq Hrem].
  pose proof (Z.mod_pos_bound A P HP) as HR.
  pose proof (Z.mod_pos_bound (A / P) 2 ltac:(lia)) as Hb.
  cbn [shr_m shr_r shr_s]. rewrite Hq, Hrem, <- Hm.
  split; [reflexivity|]. split.
  - rewrite Zodd_mod. rewrite <- Hm in Hb.
    destruct (Z.eqb_spec (m mod 2) 1) as [H1|H1].
    + rewrite H1. symmetry. apply Z.leb_le. lia.
    + symmetry. apply Z.leb_gt. assert (m mod 2 = 0) as -> by lia. lia.
  - subst r s. rewrite <- Hm in Hb.
    assert (Hsum : 2 * (A mod P + P * (m mod 2))
                   = 2 * (A mod P) + (m mod 2) * (P * 2)) by ring.
    rewrite Hsum, Z.mod_add by lia.
    destruct (Z.leb_spec P (2 * (A mod P))) as [Hge|Hlt]; cbn [orb].
    + symmetry. apply negb_true_iff, Z.eqb_neq.
      rewrite Z.mod_small by lia. lia.
    + rewrite (Z.mod_small (2 * (A mod P)) P) by lia.
      rewrite (Z.mod_small (2 * (A mod P)) (P * 2)) by lia. reflexivity.
Qed.

Lemma located_iter A D :
  0 < D -> 0 <= A ->
  forall p k mrs,
    0 <= k -> located A D k mrs ->
    located A D (k + Zpos p) (iter_pos shr_1 p mrs).
Proof.
  intros HD HA. induction p as [p IH|p IH|]; intros k mrs Hk Hloc; simpl.
  - replace (k + Zpos p~1) with (k + 1 + Zpos p + Zpos p) by lia.
    apply IH; [lia|]. apply IH; [lia|]. now apply located_step.
  - replace (k + Zpos p~0) with (k + Zpos p + Zpos p) by lia.
    apply IH; [lia|]. now apply IH.
  - now apply located_step.
Qed.

Lemma located_new_location A D :
  0 < D -> 0 <= A ->
  located A D 0 (shr_record_of_loc (A / D) (new_location D (A mod D))).
Proof.
  intros HD HA. unfold located. rewrite Z.pow_0_r, Z.mul_1_r.
  pose proof (Z.mod_pos_bound A D HD) as HR.
  set (R := A mod D) in *.
  assert (Hge : D <= 2 * R -> (2 * R) mod D = 2 * R - D).
  { intros Hge. replace (2 * R) with (2 * R - D + 1 * D) at 1 by ring.
    rewrite Z.mod_add, Z.mod_small by lia. reflexivity. }
  assert (Hlt : 2 * R < D -> (2 * R) mod D = 2 * R).
  { intros Hlt. apply Z.mod_small. lia. }
  rewrite new_location_eq.
  destruct (Z.eqb_spec R 0) as [H0|H0].
  - cbn [shr_record_of_loc shr_m shr_r shr_s]. repeat split.
    + symmetry. apply Z.leb_gt. lia.
    + rewrite Hlt by lia. symmetry. apply negb_false_iff, Z.eqb_eq. lia.
  - destruct (Z.even D) eqn:Hev.
    + destruct (Z.compare_spec (2 * R) D) as [Hc|Hc|Hc];
        cbn [shr_record_of_loc shr_m shr_r shr_s]; repeat split; symmetry.
      * apply Z.leb_le. lia.
      * rewrite Hge by lia. apply negb_false_iff, Z.eqb_eq. lia.
      * apply Z.leb_gt. lia.
      * rewrite Hlt by lia. apply negb_true_iff, Z.eqb_neq. lia.
      * apply Z.leb_le. lia.
      * rewrite Hge by lia. apply negb_true_iff, Z.eqb_neq. lia.
    + assert (Hodd : Z.odd D = true)
        by (rewrite <- Z.negb_even, Hev; reflexivity).
      apply Z.odd_spec in Hodd. destruct Hodd as [x Hx].
      destruct (Z.compare_spec (2 * R + 1) D) as [Hc|Hc|Hc];
        cbn [shr_record_of_loc shr_m shr_r shr_s]; repeat split; symmetry.
      * apply Z.leb_gt. lia.
      * rewrite Hlt by lia. apply negb_true_iff, Z.eqb_neq. lia.
      * apply Z.leb_gt. lia.
      * rewrite Hlt by lia. apply negb_true_iff, Z.eqb_neq. lia.
      * apply Z.leb_le. lia.
      * rewrite Hge by lia. apply negb_true_iff, Z.eqb_neq. lia.
Qed.

(** Rounding a located quotient to nearest, ties to even: the result is
    the quotient or its successor, within half a unit of [A / P]. *)
Lemma round_located A D k mrs :
  0 < D -> 0 <= k -> 0 <= A ->
  located A D k mrs ->
  let m := round_nearest_even (shr_m mrs) (loc_of_shr_record mrs) in
  A / (D * 2 ^ k) <= m <= A / (D * 2 ^ k) + 1
  /\ 2 * Z.abs (m * (D * 2 ^ k) - A) <= D * 2 ^ k.
Proof.
  intros HD Hk HA (Hm & Hr & Hs).
  assert (HP : 0 < D * 2 ^ k)
    by (apply Z.mul_pos_pos; [lia | apply Z.pow_pos_nonneg; lia]).
  set (P := D * 2 ^ k) in *.
  pose proof (Z.mod_pos_bound A P HP) as HR.
  pose proof (Z.div_mod A P ltac:(lia)) as HAeq.
  destruct mrs as [m0 r s]; cbn [shr_m shr_r shr_s] in *.
  rewrite <- Hm in *. clear Hm.
  set (R := A mod P) in *.
  assert (HmP : m0 * P = A - R) by lia.
  assert (Hs0 : s = false ->
                (P <= 2 * R -> 2 * R = P) /\ (2 * R < P -> R = 0)).
  { intros ->. symmetry in Hs. apply negb_false_iff, Z.eqb_eq in Hs.
    split; intros H.
    - replace (2 * R) with (2 * R - P + 1 * P) in Hs by ring.
      rewrite Z.mod_add, Z.mod_small in Hs by lia. lia.
    - rewrite Z.mod_small in Hs by lia. lia. }
  assert (Hsucc : (m0 + 1) * P = m0 * P + P) by ring.
  rewrite !round_nearest_even_eq.
  destruct r; symmetry in Hr;
    [apply Z.leb_le in Hr | apply Z.leb_gt in Hr];
    destruct s; cbn [loc_of_shr_record].
  - rewrite Hsucc. split; lia.
  - destruct (Hs0 eq_refl) as [Hhalf _]. specialize (Hhalf Hr).
    destruct (Z.even m0); rewrite ?Hsucc; split; lia.
  - split; lia.
  - destruct (Hs0 eq_refl) as [_ Hzero]. specialize (Hzero Hr). split; lia.
Qed.

Lemma digits2_pos_size p : digits2_pos p = Pos.size p.
Proof. induction p; simpl; congruence. Qed.

Lemma Zdigits2_log2 m : 0 < m -> Zdigits2 m = Z.log2 m + 1.
Proof.
  destruct m as [|p|p]; try lia. intros _. unfold Zdigits2.
  rewrite digits2_pos_size. destruct p; simpl; lia.
Qed.

Lemma Zdigits2_bounds m :
  0 < m -> 2 ^ (Zdigits2 m - 1) <= m < 2 ^ Zdigits2 m.
Proof.
  intros Hm. rewrite (Zdigits2_log2 m Hm).
  replace (Z.log2 m + 1 - 1) with (Z.log2 m) by lia.
  apply Z.log2_spec, Hm.
Qed.

Lemma Zdigits2_unique m d :
  0 < d -> 2 ^ (d - 1) <= m < 2 ^ d -> Zdigits2 m = d.
Proof.
  intros Hd Hm.
  assert (0 < m) by (pose proof (Z.pow_pos_nonneg 2 (d - 1)); lia).
  rewrite Zdigits2_log2 by assumption.
  rewrite (Z.log2_unique m (d - 1)); [lia|lia|].
  replace (Z.succ (d - 1)) with d by lia. exact Hm.
Qed.

Lemma pow2_pos k : 0 <= k -> 0 < 2 ^ k.
Proof. intros. apply Z.pow_pos_nonneg; lia. Qed.

(** The first shift of [binary_round_aux]: by [n] places. *)
Lemma shr_located A D E n :
  0 < D -> 0 <= A -> 0 <= n ->
  exists mrs,
    shr (shr_record_of_loc (A / D) (new_location D (A mod D))) E n
    = (mrs, E + n)
    /\ located A D n mrs.
Proof.
  intros HD HA Hn. rewrite shr_eq.
  pose proof (located_new_location A D HD HA) as H0.
  destruct n as [|p|p]; [| |lia].
  - eexists. split; [rewrite Z.add_0_r; reflexivity|exact H0].
  - eexists. split; [reflexivity|].
    apply (located_iter A D HD HA p 0 _ (Z.le_refl 0) H0).
Qed.

(** Rounding the quotient [A / D], scaled by [2 ^ E], to a normal binary64
    number: the mantissa has 53 bits and the result is within half a unit
    in the last place of the quotient. *)
Lemma round_aux_spec A D E :
  0 < D -> 2 ^ 52 * D <= A ->
  -1074 <= Zdigits2 (A / D) + E - 53 ->
  Zdigits2 (A / D) + E - 52 <= 971 ->
  exists (m : positive) (j : Z),
    binary_round_aux prec emax false (A / D) E (new_location D (A mod D))
    = S754_finite false m (E + j)
    /\ 2 ^ 52 <= Zpos m < 2 ^ 53
    /\ Zdigits2 (A / D) - 53 <= j <= Zdigits2 (A / D) - 52
    /\ 2 * Z.abs (Zpos m * (D * 2 ^ j) - A) <= D * 2 ^ j.
Proof.
  intros HD HAD Hlo Hhi.
  assert (HA : 0 <= A) by (pose proof (pow2_pos 52); nia).
  assert (Hq : 2 ^ 52 <= A / D)
    by (apply Z.div_le_lower_bound; [lia|]; rewrite Z.mul_comm; exact HAD).
  set (q := A / D) in *. set (d := Zdigits2 q) in *.
  assert (Hq0 : 0 < q) by (pose proof (pow2_pos 52); lia).
  pose proof (Zdigits2_bounds q Hq0) as Hd. fold d in Hd.
  assert (Hd53 : 53 <= d).
  { destruct (Z.le_gt_cases 53 d) as [H|H]; [exact H|].
    assert (2 ^ d <= 2 ^ 52) by (apply Z.pow_le_mono_r; lia). lia. }
  set (n := d - 53).
  assert (Hn : 0 <= n) by (unfold n; lia).
  rewrite binary_round_aux_eq, shr_fexp_eq. fold d.
  rewrite Z.max_l by lia.
  replace (d + E - 53 - E) with n by (unfold n; lia).
  destruct (shr_located A D E n HD HA Hn) as (mrs & Hshr & Hloc).
  fold q in Hshr. rewrite Hshr.
  pose proof (round_located A D n mrs HD Hn HA Hloc) as [Hm1 Herr].
  cbv zeta in Hm1, Herr.
  set (m1 := round_nearest_even (shr_m mrs) (loc_of_shr_record mrs)) in *.
  assert (HPn : 0 < 2 ^ n) by (apply pow2_pos; exact Hn).
  assert (Hm0 : 2 ^ 52 <= A / (D * 2 ^ n) < 2 ^ 53).
  { rewrite <- Z.div_div by lia. fold q.
    assert (Hsplit : 2 ^ d = 2 ^ 53 * 2 ^ n)
      by (rewrite <- Z.pow_add_r by lia; f_equal; unfold n; lia).
    assert (Hsplit' : 2 ^ (d - 1) = 2 ^ 52 * 2 ^ n)
      by (rewrite <- Z.pow_add_r by lia; f_equal; unfold n; lia).
    split.
    - apply Z.div_le_lower_bound; [lia|]. rewrite Z.mul_comm. lia.
    - apply Z.div_lt_upper_bound; [lia|]. rewrite Z.mul_comm. lia. }
  rewrite shr_fexp_eq.
  destruct (Z.eq_dec m1 (2 ^ 53)) as [Htop|Htop].
  - (* the mantissa rounds up to the next binade *)
    rewrite Htop in *.
    exists (Z.to_pos (2 ^ 52)), (n + 1).
    change (Zdigits2 (2 ^ 53)) with 54.
    rewrite Z.max_l by lia.
    replace (54 + (E + n) - 53 - (E + n)) with 1 by lia.
    rewrite shr_eq. cbn [iter_pos shr_record_of_loc].
    change (shr_m (shr_1 {| shr_m := 2 ^ 53; shr_r := false; shr_s := false |}))
      with (Z.pos (Z.to_pos (2 ^ 52))).
    cbv iota beta.
    destruct (Z.leb_spec (E + n + 1) 971) as [_|Hbad]; [|unfold n in Hbad; lia].
    split; [f_equal; lia|].
    change (Z.pos (Z.to_pos (2 ^ 52))) with (2 ^ 52).
    split; [split; [lia|reflexivity]|].
    split; [unfold n; lia|].
    rewrite Z.pow_add_r, Z.pow_1_r by lia.
    replace (2 ^ 52 * (D * (2 ^ n * 2)) - A) with (2 ^ 53 * (D * 2 ^ n) - A) by ring.
    assert (0 < D * 2 ^ n) by (apply Z.mul_pos_pos; lia).
    lia.
  - assert (Hm1b : 2 ^ 52 <= m1 < 2 ^ 53) by lia.
    assert (Hd1 : Zdigits2 m1 = 53) by (apply Zdigits2_unique; [lia|exact Hm1b]).
    rewrite Hd1, Z.max_l by lia.
    replace (53 + (E + n) - 53 - (E + n)) with 0 by lia.
    rewrite shr_eq. cbn [shr_record_of_loc shr_m].
    destruct m1 as [|p|p]; try lia.
    exists p, n.
    destruct (Z.leb_spec (E + n) 971) as [_|Hbad]; [|unfold n in Hbad; lia].
    split; [reflexivity|]. split; [exact Hm1b|]. split; [unfold n; lia|exact Herr].
Qed.

Lemma SFdiv_core_binary_eq m1 e1 m2 e2 :
  SFdiv_core_binary prec emax m1 e1 m2 e2
  = let e' := Z.min (Z.max (Zdigits2 m1 + e1 - (Zdigits2 m2 + e2) - 53) (-1074))
                    (e1 - e2) in
    let s := e1 - e2 - e' in
    let m' := match s with
              | Zpos _ => Z.shiftl m1 s
              | Z0 => m1
              | Zneg _ => 0
              end in
    let '(q, r) := Z.div_eucl m' m2 in
    (q, e', new_location m2 r).
Proof. reflexivity. Qed.

Lemma div_eucl_div_mod a b : Z.div_eucl a b = (a / b, a mod b).
Proof. unfold Z.div, Z.modulo. destruct (Z.div_eucl a b); reflexivity. Qed.

Lemma round_aux_exact m e :
  2 ^ 52 <= Zpos m < 2 ^ 53 -> -1074 <= e <= 971 ->
  binary_round_aux prec emax false (Zpos m) e loc_Exact = S754_finite false m e.
Proof.
  intros Hm He.
  assert (Hd : Zdigits2 (Zpos m) = 53) by (apply Zdigits2_unique; [lia|exact Hm]).
  rewrite binary_round_aux_eq, shr_fexp_eq, Hd, Z.max_l by lia.
  replace (53 + e - 53 - e) with 0 by lia.
  rewrite shr_eq. cbn [shr_record_of_loc loc_of_shr_record shr_m].
  rewrite round_nearest_even_eq, shr_fexp_eq, Hd, Z.max_l by lia.
  replace (53 + e - 53 - e) with 0 by lia.
  rewrite shr_eq. cbn [shr_record_of_loc shr_m].
  destruct (Z.leb_spec e 971); [reflexivity|lia].
Qed.

Lemma iter_xO_pow2 p n : Zpos (Pos.iter xO p n) = Zpos p * 2 ^ Zpos n.
Proof.
  induction n as [|n IH] using Pos.peano_ind.
  - simpl. lia.
  - rewrite Pos.iter_succ, Pos2Z.inj_xO, IH, Pos2Z.inj_succ, Z.pow_succ_r by lia.
    ring.
Qed.

Lemma binary_round_eq sx mx ex :
  binary_round prec emax sx mx ex
  = let '(mz, ez) :=
      match Z.max (Zpos (digits2_pos mx) + ex - 53) (-1074) - ex with
      | Zneg d => (Pos.iter xO mx d, Z.max (Zpos (digits2_pos mx) + ex - 53) (-1074))
      | _ => (mx, ex)
      end in
    binary_round_aux prec emax sx (Zpos mz) ez loc_Exact.
Proof. reflexivity. Qed.

(** An int below [2 ^ 53] converts exactly, to a normalised mantissa. *)
Lemma int_to_float_exact d :
  0 < d < 2 ^ 53 ->
  exists (m : positive) (k : Z),
    int_to_float d = ok (S754_finite false m (- k))
    /\ 0 <= k <= 52 /\ Zpos m = d * 2 ^ k /\ 2 ^ 52 <= Zpos m < 2 ^ 53.
Proof.
  intros Hd. destruct d as [|p|p]; try lia.
  unfold int_to_float, binary_normalize. rewrite binary_round_eq.
  pose proof (Zdigits2_bounds (Zpos p) ltac:(lia)) as Hb.
  set (dd := Zdigits2 (Zpos p)) in *.
  change (Zpos (digits2_pos p)) with dd.
  assert (Hdd_pos : 0 < dd) by (unfold dd; simpl; lia).
  assert (Hdd : dd <= 53).
  { destruct (Z.le_gt_cases dd 53) as [H|H]; [exact H|].
    assert (2 ^ 53 <= 2 ^ (dd - 1)) by (apply Z.pow_le_mono_r; lia). lia. }
  rewrite Z.max_l by lia.
  replace (dd + 0 - 53 - 0) with (dd - 53) by lia.
  assert (Hshift : Zpos p * 2 ^ (53 - dd) = 2 ^ (53 - dd) * Zpos p) by ring.
  assert (Hpow : 2 ^ 53 = 2 ^ (53 - dd) * 2 ^ dd)
    by (rewrite <- Z.pow_add_r by lia; f_equal; lia).
  assert (Hpow' : 2 ^ 52 = 2 ^ (53 - dd) * 2 ^ (dd - 1))
    by (rewrite <- Z.pow_add_r by lia; f_equal; lia).
  assert (Hk : 0 < 2 ^ (53 - dd)) by (apply pow2_pos; lia).
  assert (Hnorm : 2 ^ 52 <= Zpos p * 2 ^ (53 - dd) < 2 ^ 53).
  { rewrite Hshift, Hpow, Hpow'. split.
    - apply Z.mul_le_mono_nonneg_l; lia.
    - apply Z.mul_lt_mono_pos_l; lia. }
  destruct (dd - 53) as [|q|q] eqn:Hs; try lia.
  - assert (dd = 53) as Hdd53 by lia. rewrite Hdd53 in *.
    change (2 ^ (53 - 53)) with 1 in Hnorm. rewrite Z.mul_1_r in Hnorm.
    rewrite round_aux_exact by (exact Hnorm || lia).
    exists p, 0. repeat split; try lia.
  - assert (Hq : Zpos q = 53 - dd) by lia.
    pose proof (iter_xO_pow2 p q) as Hit. rewrite Hq in Hit.
    rewrite round_aux_exact by (rewrite ?Hit; (exact Hnorm || lia)).
    exists (Pos.iter xO p q), (53 - dd).
    replace (- (53 - dd)) with (dd + 0 - 53) by lia.
    repeat split; try lia.
Qed.

(** [640 / L] in double precision, for a longer side [L] above the cap:
    a normal number [m * 2 ^ (- t)] within half a unit in the last place
    of the quotient. *)
Lemma ratio_spec L :
  640 < L < 2 ^ 31 ->
  exists (m : positive) (t : Z),
    int_truediv 640 L = ok (S754_finite false m (- t))
    /\ 2 ^ 52 <= Zpos m < 2 ^ 53
    /\ 0 <= t <= 74
    /\ 2 * Z.abs (Zpos m * L - 640 * 2 ^ t) <= L.
Proof.
  intros HL. unfold int_truediv.
  destruct (Z.eqb_spec L 0) as [|_]; [lia|].
  destruct L as [|p|p]; try lia.
  cbn [exact_of_int SFdiv xorb].
  rewrite SFdiv_core_binary_eq.
  pose proof (Zdigits2_bounds (Zpos p) ltac:(lia)) as Hb.
  set (L := Zpos p) in *. set (d2 := Zdigits2 L) in *.
  change (Zdigits2 640) with 10.
  assert (Hd2 : 10 <= d2 <= 31).
  { split.
    - destruct (Z.le_gt_cases 10 d2) as [H|H]; [exact H|].
      assert (2 ^ d2 <= 2 ^ 9) by (apply Z.pow_le_mono_r; lia). lia.
    - destruct (Z.le_gt_cases d2 31) as [H|H]; [exact H|].
      assert (2 ^ 31 <= 2 ^ (d2 - 1)) by (apply Z.pow_le_mono_r; lia). lia. }
  cbv zeta.
  rewrite (Z.max_l (10 + 0 - (d2 + 0) - 53)) by lia.
  rewrite Z.min_l by lia.
  set (s := 43 + d2).
  replace (0 - 0 - (10 + 0 - (d2 + 0) - 53)) with s by (unfold s; lia).
  replace (10 + 0 - (d2 + 0) - 53) with (- s) by (unfold s; lia).
  assert (Hs : 0 < s) by (unfold s; lia).
  destruct s as [|sp|sp] eqn:Hsp; try lia. rewrite <- Hsp in *.
  rewrite Z.shiftl_mul_pow2 by lia.
  rewrite div_eucl_div_mod.
  set (A := 640 * 2 ^ s).
  assert (Hpow : 2 ^ s = 2 ^ 43 * 2 ^ d2)
    by (rewrite <- Z.pow_add_r by lia; reflexivity).
  assert (Hpow1 : 2 ^ d2 = 2 * 2 ^ (d2 - 1))
    by (rewrite <- Z.pow_succ_r by lia; f_equal; lia).
  assert (H43 : 0 < 2 ^ 43) by (apply pow2_pos; lia).
  assert (HAlo : 2 ^ 52 * L <= A).
  { unfold A. rewrite Hpow.
    change (2 ^ 52) with (512 * 2 ^ 43). nia. }
  assert (HAhi : A < 2 ^ 54 * L).
  { unfold A. rewrite Hpow, Hpow1.
    change (2 ^ 54) with (2048 * 2 ^ 43). nia. }
  assert (Hq : 2 ^ 52 <= A / L < 2 ^ 54).
  { split.
    - apply Z.div_le_lower_bound; [lia|]. rewrite Z.mul_comm. exact HAlo.
    - apply Z.div_lt_upper_bound; [lia|]. rewrite Z.mul_comm. exact HAhi. }
  pose proof (Zdigits2_bounds (A / L) ltac:(lia)) as Hdq.
  assert (Hdq' : 53 <= Zdigits2 (A / L) <= 54).
  { split.
    - destruct (Z.le_gt_cases 53 (Zdigits2 (A / L))) as [H|H]; [exact H|].
      assert (2 ^ Zdigits2 (A / L) <= 2 ^ 52) by (apply Z.pow_le_mono_r; lia).
      lia.
    - destruct (Z.le_gt_cases (Zdigits2 (A / L)) 54) as [H|H]; [exact H|].
      assert (2 ^ 54 <= 2 ^ (Zdigits2 (A / L) - 1))
        by (apply Z.pow_le_mono_r; lia).
      lia. }
  destruct (round_aux_spec A L (- s) ltac:(lia) HAlo ltac:(lia) ltac:(lia))
    as (m & j & Hround & Hm & Hj & Herr).
  rewrite Hround.
  exists m, (s - j).
  replace (- s + j) with (- (s - j)) by lia.
  split; [reflexivity|]. split; [exact Hm|]. split; [unfold s in *; lia|].
  assert (Hj2 : 0 < 2 ^ j) by (apply pow2_pos; lia).
  assert (Hsplit : 2 ^ s = 2 ^ (s - j) * 2 ^ j)
    by (rewrite <- Z.pow_add_r by lia; f_equal; lia).
  unfold A in Herr. rewrite Hsplit in Herr.
  replace (Zpos m * (L * 2 ^ j) - 640 * (2 ^ (s - j) * 2 ^ j))
    with ((Zpos m * L - 640 * 2 ^ (s - j)) * 2 ^ j) in Herr by ring.
  rewrite Z.abs_mul, (Z.abs_eq (2 ^ j)) in Herr by lia.
  nia.
Qed.

(** The error analysis of [int(d * (640 / L))], on integers: [mr / a]
    approximates [640 / L], [mp / T] approximates [d * mr / a], both to
    half a unit in the last place of a 53-bit mantissa. *)
Section ScaleArith.

Variables L d mr a b c mp : Z.
Hypothesis HL : 640 < L < 2 ^ 31.
Hypothesis Hd : 0 < d < 2 ^ 31.
Hypothesis Hmr : 2 ^ 52 <= mr < 2 ^ 53.
Hypothesis Ha : 0 < a.
Hypothesis Hb : 0 < b.
Hypothesis Hc : 0 < c.
Hypothesis Hratio : 2 * Z.abs (mr * L - 640 * a) <= L.
Hypothesis Hdb : 2 ^ 52 <= d * b < 2 ^ 53.
Hypothesis Hmp : 2 ^ 52 <= mp < 2 ^ 53.
Hypothesis Hprod : 2 * Z.abs (mp * c - d * b * mr) <= c.

Lemma scale_a_lower : 2 ^ 42 * L <= a.
Proof.
  assert (2 ^ 52 * L <= mr * L) by (apply Z.mul_le_mono_nonneg_r; lia).
  lia.
Qed.

Lemma scale_c_upper : c <= 3 * (d * b).
Proof.
  assert (2 ^ 52 * c <= mp * c) by (apply Z.mul_le_mono_nonneg_r; lia).
  assert (d * b * mr <= d * b * 2 ^ 53) by (apply Z.mul_le_mono_nonneg_l; lia).
  lia.
Qed.

Lemma scale_db_upper : d * b * L <= 2 ^ 31 * (b * L).
Proof.
  assert (0 < b * L) by (apply Z.mul_pos_pos; lia).
  replace (d * b * L) with (d * (b * L)) by ring.
  apply Z.mul_le_mono_nonneg_r; lia.
Qed.

Lemma scale_ab_lower : 2 ^ 42 * (b * L) <= a * b.
Proof.
  pose proof scale_a_lower.
  replace (2 ^ 42 * (b * L)) with (2 ^ 42 * L * b) by ring.
  apply Z.mul_le_mono_nonneg_r; lia.
Qed.

Lemma scale_exponent : c < a * b.
Proof.
  pose proof scale_c_upper. pose proof scale_ab_lower.
  assert (d * b <= 2 ^ 31 * b) by (apply Z.mul_le_mono_nonneg_r; lia).
  assert (b <= b * L) by nia.
  lia.
Qed.

Lemma scale_error : Z.abs (mp * c * L - 640 * d * (a * b)) < a * b.
Proof.
  pose proof scale_c_upper as Hcu. pose proof scale_ab_lower as Hab.
  pose proof scale_db_upper as Hdbu.
  assert (HbL : 0 < b * L) by (apply Z.mul_pos_pos; lia).
  set (e1 := mp * c - d * b * mr) in *.
  set (e2 := mr * L - 640 * a) in *.
  assert (Hsplit : mp * c * L - 640 * d * (a * b) = L * e1 + d * b * e2)
    by (unfold e1, e2; ring).
  rewrite Hsplit.
  assert (H1 : 2 * Z.abs (L * e1) <= L * c).
  { rewrite Z.abs_mul, (Z.abs_eq L) by lia.
    replace (2 * (L * Z.abs e1)) with (L * (2 * Z.abs e1)) by ring.
    apply Z.mul_le_mono_nonneg_l; lia. }
  assert (H2 : 2 * Z.abs (d * b * e2) <= d * b * L).
  { rewrite Z.abs_mul, (Z.abs_eq (d * b)) by lia.
    replace (2 * (d * b * Z.abs e2)) with (d * b * (2 * Z.abs e2)) by ring.
    apply Z.mul_le_mono_nonneg_l; lia. }
  assert (H3 : L * c <= 3 * (d * b * L)).
  { replace (3 * (d * b * L)) with (L * (3 * (d * b))) by ring.
    apply Z.mul_le_mono_nonneg_l; lia. }
  pose proof (Z.abs_triangle (L * e1) (d * b * e2)).
  lia.
Qed.

Variable T : Z.
Hypothesis HT : 0 < T.
Hypothesis HTc : a * b = T * c.

Lemma scale_floor :
  mp / T * L <= 640 * d <= (mp / T + 1) * L.
Proof.
  pose proof scale_error as Herr. rewrite HTc in Herr.
  replace (mp * c * L - 640 * d * (T * c)) with ((mp * L - 640 * d * T) * c)
    in Herr by ring.
  rewrite Z.abs_mul, (Z.abs_eq c) in Herr by lia.
  assert (Herr' : Z.abs (mp * L - 640 * d * T) < T).
  { apply (Z.mul_lt_mono_pos_r c); [exact Hc|exact Herr]. }
  pose proof (Z.div_mod mp T ltac:(lia)) as Hdm.
  pose proof (Z.mod_pos_bound mp T HT) as Hrem.
  set (n := mp / T) in *.
  assert (Hn0 : 0 <= n) by (apply Z.div_pos; lia).
  split.
  - destruct (Z.le_gt_cases (n * L) (640 * d)) as [H|H]; [exact H|].
    exfalso.
    assert (T * (640 * d + 1) <= T * (n * L))
      by (apply Z.mul_le_mono_nonneg_l; lia).
    assert (T * n * L <= mp * L) by (apply Z.mul_le_mono_nonneg_r; lia).
    lia.
  - destruct (Z.le_gt_cases (640 * d) ((n + 1) * L)) as [H|H]; [exact H|].
    exfalso.
    assert (T * ((n + 1) * L + 1) <= T * (640 * d))
      by (apply Z.mul_le_mono_nonneg_l; lia).
    assert (mp * L <= (T * n + T) * L) by (apply Z.mul_le_mono_nonneg_r; lia).
    lia.
Qed.

End ScaleArith.

Lemma float_mul_finite m1 e1 m2 e2 :
  float_mul (S754_finite false m1 e1) (S754_finite false m2 e2)
  = binary_round_aux prec emax false (Zpos m1 * Zpos m2) (e1 + e2) loc_Exact.
Proof. reflexivity. Qed.

Lemma Zdigits2_range m lo hi :
  0 < lo -> lo <= hi -> 2 ^ (lo - 1) <= m < 2 ^ hi -> lo <= Zdigits2 m <= hi.
Proof.
  intros Hlo Hhi Hm.
  assert (H0 : 0 < m) by (pose proof (pow2_pos (lo - 1)); lia).
  pose proof (Zdigits2_bounds m H0) as Hb.
  pose proof (Zdigits2_log2 m H0) as Hlog. pose proof (Z.log2_nonneg m).
  split.
  - destruct (Z.le_gt_cases lo (Zdigits2 m)) as [H1|H1]; [exact H1|].
    assert (2 ^ Zdigits2 m <= 2 ^ (lo - 1)) by (apply Z.pow_le_mono_r; lia).
    lia.
  - destruct (Z.le_gt_cases (Zdigits2 m) hi) as [H1|H1]; [exact H1|].
    assert (2 ^ hi <= 2 ^ (Zdigits2 m - 1)) by (apply Z.pow_le_mono_r; lia).
    lia.
Qed.

(** [int(d * ratio)] for the double [ratio] nearest to [640 / L]: the
    result [n] is an integer with [n <= 640 * d / L <= n + 1]. *)
Lemma scaled_spec L (m : positive) t d :
  640 < L < 2 ^ 31 ->
  2 ^ 52 <= Zpos m < 2 ^ 53 ->
  0 <= t <= 74 ->
  2 * Z.abs (Zpos m * L - 640 * 2 ^ t) <= L ->
  0 <= d < 2 ^ 31 ->
  exists n,
    scaled (S754_finite false m (- t)) d = ok n
    /\ 0 <= n
    /\ n * L <= 640 * d <= (n + 1) * L.
Proof.
  intros HL Hm Ht Hratio Hd. unfold scaled, int_mul_float.
  destruct (Z.eq_dec d 0) as [->|Hd0].
  - exists 0. split; [reflexivity|]. lia.
  - destruct (int_to_float_exact d) as (md & k & -> & Hk & Hmd & Hmdb).
    { change (2 ^ 53) with (2 ^ 22 * 2 ^ 31). lia. }
    cbn [bind]. rewrite float_mul_finite.
    set (A := Zpos md * Zpos m).
    assert (HA : 2 ^ 104 <= A < 2 ^ 106).
    { unfold A. change (2 ^ 104) with (2 ^ 52 * 2 ^ 52).
      change (2 ^ 106) with (2 ^ 53 * 2 ^ 53). split.
      - apply Z.mul_le_mono_nonneg; lia.
      - apply Z.mul_lt_mono_nonneg; lia. }
    pose proof (Zdigits2_range A 105 106 ltac:(lia) ltac:(lia) HA) as Hdig.
    pose proof (round_aux_spec A 1 (- k + - t) ltac:(lia)) as Hround.
    rewrite Z.div_1_r, Z.mod_1_r in Hround.
    change (new_location 1 0) with loc_Exact in Hround.
    destruct Hround as (mp & jp & -> & Hmp & Hjp & Herr); try lia.
    rewrite Z.mul_1_l in Herr.
    assert (Hpa : 0 < 2 ^ t) by (apply pow2_pos; lia).
    assert (Hpb : 0 < 2 ^ k) by (apply pow2_pos; lia).
    assert (Hpc : 0 < 2 ^ jp) by (apply pow2_pos; lia).
    assert (Hdb : 2 ^ 52 <= d * 2 ^ k < 2 ^ 53) by (rewrite <- Hmd; exact Hmdb).
    assert (Hprod : 2 * Z.abs (Zpos mp * 2 ^ jp - d * 2 ^ k * Zpos m) <= 2 ^ jp)
      by (rewrite <- Hmd; exact Herr).
    assert (Hexp : jp < t + k).
    { apply (Z.pow_lt_mono_r_iff 2); [lia|lia|].
      rewrite Z.pow_add_r by lia.
      apply (scale_exponent L d (Zpos m) (2 ^ t) (2 ^ k) (2 ^ jp) (Zpos mp));
        (assumption || lia). }
    set (T := 2 ^ (t + k - jp)).
    assert (HT : 0 < T) by (apply pow2_pos; lia).
    assert (HTc : 2 ^ t * 2 ^ k = T * 2 ^ jp).
    { unfold T. rewrite <- !Z.pow_add_r by lia. f_equal. lia. }
    cbn [float_to_int cond_Zopp].
    replace (- k + - t + jp) with (- (t + k - jp)) by lia.
    rewrite Z.shiftl_opp_r, Z.shiftr_div_pow2 by lia. fold T.
    exists (Zpos mp / T). split; [reflexivity|].
    split; [apply Z.div_pos; lia|].
    apply (scale_floor L d (Zpos m) (2 ^ t) (2 ^ k) (2 ^ jp) (Zpos mp));
      (assumption || lia).
Qed.

End Rounding.

(** * The resizer's arithmetic *)

(** Both components of the size the stream path requests, for a longer side
    [L] above the cap: each is within one pixel below the exact scaling. *)
Lemma new_size_spec w h :
  0 <= w < 2 ^ 31 -> 0 <= h < 2 ^ 31 -> 640 < Z.max w h ->
  exists nw nh,
    new_size 640 (w, h) = ok (nw, nh)
    /\ 0 <= nw /\ 0 <= nh
    /\ nw * Z.max w h <= 640 * w <= (nw + 1) * Z.max w h
    /\ nh * Z.max w h <= 640 * h <= (nh + 1) * Z.max w h.
Proof.
  intros Hw Hh HL. unfold new_size. cbn [fst snd].
  set (L := Z.max w h) in *.
  assert (HL' : 640 < L < 2 ^ 31) by (unfold L in *; lia).
  destruct (ratio_spec L HL') as (m & t & -> & Hm & Ht & Herr).
  cbn [bind].
  destruct (scaled_spec L m t w HL' Hm Ht Herr Hw) as (nw & -> & Hnw0 & Hnw).
  destruct (scaled_spec L m t h HL' Hm Ht Herr Hh) as (nh & -> & Hnh0 & Hnh).
  cbn [bind]. exists nw, nh. repeat split; (assumption || lia).
Qed.

(** An integer [n] with [n * L <= x <= (n + 1) * L] is the floor of [x / L],
    or one less when [L] divides [x]. *)
Lemma floor_or_below n x L :
  0 < L -> n * L <= x <= (n + 1) * L ->
  n = x / L \/ (n = x / L - 1 /\ x mod L = 0).
Proof.
  intros HL [Hlo Hhi].
  destruct (Z.eq_dec x ((n + 1) * L)) as [->|Hne].
  - right. rewrite Z.div_mul, Z.mod_mul by lia. lia.
  - left. apply (Z.div_unique x L n (x - n * L)); lia.
Qed.

(** The two sides are scaled by the same double, so the order of the sides
    is kept. *)
Lemma new_size_ordered w h :
  0 <= w < 2 ^ 31 -> 0 <= h < 2 ^ 31 -> 640 < Z.max w h ->
  exists nw nh,
    new_size 640 (w, h) = ok (nw, nh)
    /\ (w <= h -> nw <= nh) /\ (h <= w -> nh <= nw).
Proof.
  intros Hw Hh HL. unfold new_size. cbn [fst snd].
  set (L := Z.max w h) in *.
  assert (HL' : 640 < L < 2 ^ 31) by (unfold L in *; lia).
  destruct (ratio_spec L HL') as (m & t & -> & Hm & Ht & Herr).
  cbn [bind].
  destruct (scaled_spec L m t w HL' Hm Ht Herr Hw) as (nw & Hsw & _ & Hnw).
  destruct (scaled_spec L m t h HL' Hm Ht Herr Hh) as (nh & Hsh & _ & Hnh).
  rewrite Hsw, Hsh. cbn [bind]. exists nw, nh. split; [reflexivity|].
  split; intros Hle.
  - destruct (Z.eq_dec w h) as [Heq|Hne].
    + rewrite Heq, Hsh in Hsw. injection Hsw as ->. lia.
    + destruct (Z.le_gt_cases nw nh) as [H|H]; [exact H|]. exfalso.
      assert ((nh + 1) * L <= nw * L) by (apply Z.mul_le_mono_nonneg_r; lia).
      lia.
  - destruct (Z.eq_dec w h) as [Heq|Hne].
    + rewrite Heq, Hsh in Hsw. injection Hsw as ->. lia.
    + destruct (Z.le_gt_cases nh nw) as [H|H]; [exact H|]. exfalso.
      assert ((nw + 1) * L <= nh * L) by (apply Z.mul_le_mono_nonneg_r; lia).
      lia.
Qed.

(** ** What the resized image looks like *)

(** Above the cap the new longer side is 640 or, when the double product
    falls just short, 639; the longer side stays the longer one. *)
Theorem resized_longer_side w h :
  0 <= w < 2 ^ 31 -> 0 <= h < 2 ^ 31 -> 640 < Z.max w h ->
  exists nw nh,
    new_size 640 (w, h) = ok (nw, nh)
    /\ 639 <= Z.max nw nh <= 640
    /\ (w <= h -> nw <= nh) /\ (h <= w -> nh <= nw).
Proof.
  intros Hw Hh HL.
  destruct (new_size_spec w h Hw Hh HL)
    as (nw & nh & Hnew & Hnw0 & Hnh0 & Hnw & Hnh).
  destruct (new_size_ordered w h Hw Hh HL) as (nw' & nh' & Hnew' & Hwh & Hhw).
  rewrite Hnew in Hnew'. injection Hnew' as <- <-.
  exists nw, nh. split; [exact Hnew|]. split; [|split; assumption].
  set (L := Z.max w h) in *.
  destruct (Z.le_ge_cases w h) as [Hle|Hle].
  - assert (L = h) as HLh by (unfold L; lia). rewrite HLh in *.
    specialize (Hwh Hle). rewrite Z.max_r by exact Hwh. nia.
  - assert (L = w) as HLw by (unfold L; lia). rewrite HLw in *.
    specialize (Hhw Hle). rewrite Z.max_l by exact Hhw. nia.
Qed.

(** The resizer only shrinks: no new side exceeds the old one, and a
    positive side gets strictly smaller. *)
Theorem resize_never_enlarges w h :
  0 <= w < 2 ^ 31 -> 0 <= h < 2 ^ 31 -> 640 < Z.max w h ->
  exists nw nh,
    new_size 640 (w, h) = ok (nw, nh)
    /\ 0 <= nw <= w /\ 0 <= nh <= h
    /\ (0 < w -> nw < w) /\ (0 < h -> nh < h).
Proof.
  intros Hw Hh HL.
  destruct (new_size_spec w h Hw Hh HL)
    as (nw & nh & Hnew & Hnw0 & Hnh0 & Hnw & Hnh).
  exists nw, nh. split; [exact Hnew|].
  set (L := Z.max w h) in *.
  assert (Hlt : forall d n, 0 <= d -> 0 <= n -> n * L <= 640 * d ->
                            n <= d /\ (0 < d -> n < d)).
  { intros d n Hd Hn Hb.
    assert (Hstrict : 0 < d -> n < d).
    { intros Hpos. destruct (Z.lt_ge_cases n d) as [H|H]; [exact H|]. exfalso.
      assert (d * L <= n * L) by (apply Z.mul_le_mono_nonneg_r; lia).
      assert (640 * d < L * d) by (apply Z.mul_lt_mono_pos_r; lia).
      lia. }
    split; [|exact Hstrict].
    destruct (Z.eq_dec d 0) as [->|Hd0]; [nia|].
    specialize (Hstrict ltac:(lia)). lia. }
  destruct (Hlt w nw ltac:(lia) Hnw0 (proj1 Hnw)) as [Hw1 Hw2].
  destruct (Hlt h nh ltac:(lia) Hnh0 (proj1 Hnh)) as [Hh1 Hh2].
  repeat split; assumption.
Qed.

(** * The handlers *)

Section Properties.

Context {E : Externals}.

(** The adapter's [try]/[except] leaves no exception. *)
Lemma detect_objects_total (g : Globals) (img : image) :
  exists ds, detect_objects g img = ok ds.
Proof.
  unfold detect_objects.
  destruct (MODEL_AVAILABLE g); [|now exists []].
  destruct (model g) as [m|]; [|now exists []].
  destruct (m img conf_threshold iou_threshold) as [results|e]; cbn [bind try_except].
  - destruct (for_results results []) as [ds|e]; cbn [try_except]; eauto.
  - now exists [].
Qed.

Lemma decode_image_total (v : json) :
  exists r, decode_image v = ok r.
Proof.
  unfold decode_image.
  destruct (b64_input v) as [x|e]; cbn [bind try_except]; [|eauto].
  destruct (base64_b64decode x) as [bytes|e]; cbn [bind try_except]; [|eauto].
  destruct (Image_open bytes) as [img|e]; cbn [bind try_except]; eauto.
Qed.

Lemma no_image_dict kv v :
  dict_get kv "image" = Some v -> no_image (JDict kv) = ok false.
Proof.
  intros H. unfold no_image.
  destruct kv as [|p kv]; [discriminate|].
  cbn [truthy negb py_in bind]. now rewrite H.
Qed.

Lemma no_image_dict_missing kv :
  dict_get kv "image" = None -> no_image (JDict kv) = ok true.
Proof.
  intros H. unfold no_image.
  destruct kv as [|p kv]; [reflexivity|].
  cbn [truthy negb py_in bind]. now rewrite H.
Qed.

(** The common prefix of both detection handlers: body parsing, the
    presence test and the decoder. *)
Lemma detect_decoded g req kv v img :
  request_json req = ok (JDict kv) ->
  dict_get kv "image" = Some v ->
  decode_image v = ok (Some img) ->
  detect g req
  = try_except
      (detections <- detect_objects g img ;;
       ok (jsonify [("success", JBool true);
                    ("detections", JList detections);
                    ("count", JInt (Z.of_nat (List.length detections)))]))
      (fun e => ok (error_response (str e) 500)).
Proof.
  intros Hreq Hget Hdec. unfold detect.
  rewrite Hreq. cbn [bind]. rewrite (no_image_dict kv v Hget). cbn [bind].
  cbn [getitem]. rewrite Hget. cbn [bind]. rewrite Hdec. reflexivity.
Qed.

Lemma detect_stream_decoded g req kv v img :
  request_json req = ok (JDict kv) ->
  dict_get kv "image" = Some v ->
  decode_image v = ok (Some img) ->
  detect_stream g req
  = try_except
      (image <- stream_resize img ;;
       detections <- detect_objects g image ;;
       ok (jsonify [("detections", JList detections);
                    ("count", JInt (Z.of_nat (List.length detections)));
                    ("timestamp",
                      match dict_get kv "timestamp" with
                      | Some t => t
                      | None => JNone
                      end)]))
      (fun e => ok (error_response (str e) 500)).
Proof.
  intros Hreq Hget Hdec. unfold detect_stream.
  rewrite Hreq. cbn [bind]. rewrite (no_image_dict kv v Hget). cbn [bind].
  cbn [getitem]. rewrite Hget. cbn [bind]. rewrite Hdec. cbn [bind].
  destruct (stream_resize img) as [img'|e]; cbn [bind]; [|reflexivity].
  destruct (detect_objects g img') as [ds|e]; reflexivity.
Qed.

(** ** The detector adapter *)

(** C4. [detect_objects] never raises: it always returns a list, the empty
    one when the model is unavailable (the library is absent or the load
    failed), when the model call raises, and when reading the boxes of its
    results raises. *)
Theorem detect_objects_never_raises (g : Globals) (img : image) :
  (exists ds, detect_objects g img = ok ds)
  /\ (MODEL_AVAILABLE g = false \/ model g = None ->
      detect_objects g img = ok [])
  /\ (forall m e,
        MODEL_AVAILABLE g = true -> model g = Some m ->
        m img conf_threshold iou_threshold = raise e ->
        detect_objects g img = ok [])
  /\ (forall m results e,
        MODEL_AVAILABLE g = true -> model g = Some m ->
        m img conf_threshold iou_threshold = ok results ->
        for_results results [] = raise e ->
        detect_objects g img = ok []).
Proof.
  split; [apply detect_objects_total|]. unfold detect_objects.
  split; [|split].
  - intros [H|H]; rewrite H; [reflexivity|].
    destruct (MODEL_AVAILABLE g); reflexivity.
  - intros m e Ha Hm Hcall. rewrite Ha, Hm, Hcall. reflexivity.
  - intros m results e Ha Hm Hcall Hread. rewrite Ha, Hm, Hcall.
    cbn [bind]. rewrite Hread. reflexivity.
Qed.

(** ** [/health] *)

(** C9. [GET /health] answers 200 with [status: "healthy"] and
    [model_loaded: b], where after start-up [b] is true exactly when the
    import succeeded and the weights loaded. *)
Theorem health_reports_model (imp : import_outcome) :
  exists b,
    health (startup imp)
    = {| status := 200;
         body := JDict [("status", JStr "healthy"); ("model_loaded", JBool b)] |}
    /\ (b = true <->
        exists YOLO m, imp = Imported YOLO /\ YOLO "yolov8n.pt" = ok m).
Proof.
  unfold health, jsonify, startup.
  destruct imp as [|YOLO].
  - exists false. split; [reflexivity|]. split; [discriminate|].
    intros (Y & m & Himp & _). discriminate.
  - destruct (YOLO "yolov8n.pt") as [m|e] eqn:Hload.
    + exists true. split; [reflexivity|]. split; [|reflexivity].
      intros _. exists YOLO, m. split; [reflexivity|exact Hload].
    + exists false. split; [reflexivity|]. split; [discriminate|].
      intros (Y & m & Himp & Hok). injection Himp as <-. congruence.
Qed.

(** ** [/detect] *)


(** C6. When the ['image'] field decodes, [/detect] answers 200 with
    [success: true], the detections, and [count] equal to their number. *)
Theorem detect_success (g : Globals) (req : Request) kv v (img : image) :
  request_json req = ok (JDict kv) ->
  dict_get kv "image" = Some v ->
  decode_image v = ok (Some img) ->
  exists ds,
    detect_objects g img = ok ds
    /\ detect g req
       = ok {| status := 200;
               body := JDict [("success", JBool true);
                              ("detections", JList ds);
                              ("count", JInt (Z.of_nat (List.length ds)))] |}.
Proof.
  intros Hreq Hget Hdec.
  rewrite (detect_decoded g req kv v img Hreq Hget Hdec).
  destruct (detect_objects_total g img) as [ds Hds].
  exists ds. rewrite Hds. split; reflexivity.
Qed.

(** C7. With the model unavailable, [/detect] on a decodable image answers
    200 with no detections and [count: 0]. *)
Theorem detect_degraded (g : Globals) (req : Request) kv v (img : image) :
  MODEL_AVAILABLE g = false \/ model g = None ->
  request_json req = ok (JDict kv) ->
  dict_get kv "image" = Some v ->
  decode_image v = ok (Some img) ->
  detect g req
  = ok {| status := 200;
          body := JDict [("success", JBool true);
                         ("detections", JList []);
                         ("count", JInt 0)] |}.
Proof.
  intros Hmodel Hreq Hget Hdec.
  rewrite (detect_decoded g req kv v img Hreq Hget Hdec).
  assert (Hds : detect_objects g img = ok []).
  { unfold detect_objects. destruct Hmodel as [H|H]; rewrite H; [reflexivity|].
    destruct (MODEL_AVAILABLE g); reflexivity. }
  rewrite Hds. reflexivity.
Qed.

(** ** [/detect/stream] *)

(** C8. A 200 answer of [/detect/stream] carries the detections, their
    count, and [timestamp]: the request's field when it has one, [None]
    otherwise; it has no [success] field. *)
Theorem detect_stream_echoes_timestamp (g : Globals) (req : Request) r :
  detect_stream g req = ok r ->
  status r = 200 ->
  exists kv ds,
    request_json req = ok (JDict kv)
    /\ body r = JDict [("detections", JList ds);
                       ("count", JInt (Z.of_nat (List.length ds)));
                       ("timestamp", match dict_get kv "timestamp" with
                                     | Some t => t
                                     | None => JNone
                                     end)]
    /\ (forall fields, body r = JDict fields -> dict_get fields "success" = None).
Proof.
  unfold detect_stream. intros Hrun Hstatus.
  destruct (request_json req) as [data|e]; cbn [bind try_except] in Hrun;
    [|injection Hrun as <-; discriminate].
  destruct (no_image data) as [[|]|e]; cbn [bind try_except] in Hrun;
    try (injection Hrun as <-; discriminate).
  destruct (getitem data "image") as [v|e] eqn:Hget; cbn [bind try_except] in Hrun;
    [|injection Hrun as <-; discriminate].
  destruct (decode_image v) as [[img|]|e]; cbn [bind try_except] in Hrun;
    try (injection Hrun as <-; discriminate).
  destruct (stream_resize img) as [img'|e]; cbn [bind try_except] in Hrun;
    [|injection Hrun as <-; discriminate].
  destruct (detect_objects g img') as [ds|e]; cbn [bind try_except] in Hrun;
    [|injection Hrun as <-; discriminate].
  destruct data as [| | | | |l|kv]; try discriminate Hget.
  cbn [dict_get_default bind try_except] in Hrun. injection Hrun as <-.
  exists kv, ds. cbn [jsonify body]. split; [reflexivity|]. split; [reflexivity|].
  intros fields Hfields. injection Hfields as <-. reflexivity.
Qed.

(** The resizer (lines 144-148): unchanged at or below the cap, and above
    it the resampler called with the truncated sides. *)
Lemma stream_resize_spec (img : image) w h :
  Image_size img = (w, h) ->
  0 <= w < 2 ^ 31 -> 0 <= h < 2 ^ 31 ->
  (Z.max w h <= 640 -> stream_resize img = ok img)
  /\ (640 < Z.max w h ->
      exists nw nh,
        new_size 640 (w, h) = ok (nw, nh)
        /\ stream_resize img = Image_resize img (nw, nh)
        /\ 0 <= nw /\ 0 <= nh
        /\ nw * Z.max w h <= 640 * w <= (nw + 1) * Z.max w h
        /\ nh * Z.max w h <= 640 * h <= (nh + 1) * Z.max w h).
Proof.
  intros Hsize Hw Hh. unfold stream_resize. rewrite Hsize. cbn [fst snd].
  split; intros HL.
  - destruct (Z.ltb_spec 640 (Z.max w h)); [lia|reflexivity].
  - destruct (Z.ltb_spec 640 (Z.max w h)); [|lia].
    destruct (new_size_spec w h Hw Hh HL)
      as (nw & nh & Hnew & Hnw0 & Hnh0 & Hnw & Hnh).
    exists nw, nh. rewrite Hnew. cbn [bind]. repeat split; (assumption || lia).
Qed.

(** C2, as the code has it.  An image whose longer side is at most 640 is
    returned unchanged.  Above the cap the resampler is asked for
    [(int(w * r), int(h * r))] with [r] the double nearest to [640 / L],
    [L] the longer side: each product is truncated toward zero, so a new
    side is the floor of [640 * d / L], or one less when that quotient is
    an integer. *)
Theorem stream_resize_truncates (img : image) w h :
  Image_size img = (w, h) ->
  0 <= w < 2 ^ 31 -> 0 <= h < 2 ^ 31 ->
  (Z.max w h <= 640 -> stream_resize img = ok img)
  /\ (640 < Z.max w h ->
      exists nw nh,
        new_size 640 (w, h) = ok (nw, nh)
        /\ stream_resize img = Image_resize img (nw, nh)
        /\ (nw = 640 * w / Z.max w h
            \/ (nw = 640 * w / Z.max w h - 1 /\ (640 * w) mod Z.max w h = 0))
        /\ (nh = 640 * h / Z.max w h
            \/ (nh = 640 * h / Z.max w h - 1 /\ (640 * h) mod Z.max w h = 0))).
Proof.
  intros Hsize Hw Hh.
  destruct (stream_resize_spec img w h Hsize Hw Hh) as [Hsmall Hbig].
  split; [exact Hsmall|]. intros HL.
  destruct (Hbig HL) as (nw & nh & Hnew & Hcall & _ & _ & Hnw & Hnh).
  exists nw, nh. split; [exact Hnew|]. split; [exact Hcall|].
  split; apply floor_or_below; (assumption || lia).
Qed.

(** C3. When the decoded image has a longer side [L] above 640, the stream
    path either fails in the resizer, and no image reaches the detector, or
    hands the detector an image whose sides are at most 640, each within one
    pixel of the side scaled by [640 / L], so that the aspect ratio differs
    from the original's by the rounding of the two sides only. *)
Theorem stream_detector_input (g : Globals) (req : Request) kv v
    (img : image) w h :
  (forall i size i', Image_resize i size = ok i' -> Image_size i' = size) ->
  request_json req = ok (JDict kv) ->
  dict_get kv "image" = Some v ->
  decode_image v = ok (Some img) ->
  Image_size img = (w, h) ->
  0 <= w < 2 ^ 31 -> 0 <= h < 2 ^ 31 ->
  640 < Z.max w h ->
  (exists e,
      stream_resize img = raise e
      /\ detect_stream g req
         = ok {| status := 500; body := JDict [("error", JStr (str e))] |})
  \/ (exists (img' : image) nw nh ds,
        stream_resize img = ok img'
        /\ detect_objects g img' = ok ds
        /\ detect_stream g req
           = ok {| status := 200;
                   body := JDict [("detections", JList ds);
                                  ("count", JInt (Z.of_nat (List.length ds)));
                                  ("timestamp",
                                    match dict_get kv "timestamp" with
                                    | Some t => t
                                    | None => JNone
                                    end)] |}
        /\ Image_size img' = (nw, nh)
        /\ Z.max nw nh <= 640
        /\ Z.abs (nw * Z.max w h - 640 * w) <= Z.max w h
        /\ Z.abs (nh * Z.max w h - 640 * h) <= Z.max w h
        /\ Z.abs (nw * h - nh * w) <= Z.max w h).
Proof.
  intros Hresize Hreq Hget Hdec Hsize Hw Hh HL.
  rewrite (detect_stream_decoded g req kv v img Hreq Hget Hdec).
  destruct (stream_resize img) as [img'|e] eqn:Hrun; cbn [bind try_except].
  - right.
    destruct (stream_resize_spec img w h Hsize Hw Hh) as [_ Hbig].
    destruct (Hbig HL) as (nw & nh & Hnew & Hcall & Hnw0 & Hnh0 & Hnw & Hnh).
    rewrite Hrun in Hcall. symmetry in Hcall.
    pose proof (Hresize _ _ _ Hcall) as Hsize'.
    destruct (detect_objects_total g img') as [ds Hds].
    exists img', nw, nh, ds. rewrite Hds. cbn [bind try_except].
    set (L := Z.max w h) in *.
    assert (HwL : w <= L) by (unfold L; lia).
    assert (HhL : h <= L) by (unfold L; lia).
    assert (Hnw640 : nw <= 640) by nia.
    assert (Hnh640 : nh <= 640) by nia.
    repeat split; try reflexivity; try assumption; try lia.
    assert (Hcross : L * (nw * h - nh * w)
                     = w * (640 * h - nh * L) - h * (640 * w - nw * L)) by ring.
    assert (0 <= w * (640 * h - nh * L) <= w * L)
      by (split; [apply Z.mul_nonneg_nonneg|apply Z.mul_le_mono_nonneg_l]; lia).
    assert (0 <= h * (640 * w - nw * L) <= h * L)
      by (split; [apply Z.mul_nonneg_nonneg|apply Z.mul_le_mono_nonneg_l]; lia).
    assert (Hup : L * (nw * h - nh * w) <= L * L) by nia.
    assert (Hdown : L * (- L) <= L * (nw * h - nh * w)) by nia.
    apply Z.mul_le_mono_pos_l in Hup; [|lia].
    apply Z.mul_le_mono_pos_l in Hdown; [|lia].
    lia.
  - left. exists e. split; reflexivity.
Qed.

(** C10. A decoded image of size 1 x 1000 has its longer side above the
    cap and gets the new size (0, 640); the resampler refuses a size with
    an empty side, so [/detect/stream] answers 500 although the image
    decoded. *)
Theorem stream_zero_dimension (g : Globals) (req : Request) kv v (img : image) :
  (forall i size, fst size < 1 \/ snd size < 1 ->
                  exists e, Image_resize i size = raise e) ->
  request_json req = ok (JDict kv) ->
  dict_get kv "image" = Some v ->
  decode_image v = ok (Some img) ->
  Image_size img = (1, 1000) ->
  640 < Z.max 1 1000
  /\ new_size 640 (1, 1000) = ok (0, 640)
  /\ exists msg,
       detect_stream g req
       = ok {| status := 500; body := JDict [("error", JStr msg)] |}.
Proof.
  intros Hrefuse Hreq Hget Hdec Hsize.
  assert (Hnew : new_size 640 (1, 1000) = ok (0, 640)) by (vm_compute; reflexivity).
  split; [lia|]. split; [exact Hnew|].
  rewrite (detect_stream_decoded g req kv v img Hreq Hget Hdec).
  unfold stream_resize. rewrite Hsize. cbn [fst snd].
  change (640 <? Z.max 1 1000) with true. cbv iota. rewrite Hnew. cbn [bind].
  destruct (Hrefuse img (0, 640)) as [e He]; [left; cbn [fst]; lia|].
  rewrite He. cbn [try_except]. exists (str e). reflexivity.
Qed.

(** ** Start-up and degraded mode *)

(** After start-up the flag and the handle agree: [MODEL_AVAILABLE] is true
    exactly when [model] is not [None], whatever the import and the load
    did. *)
Theorem startup_consistent (imp : import_outcome) :
  (MODEL_AVAILABLE (startup imp) = true <-> model (startup imp) <> None)
  /\ (MODEL_AVAILABLE (startup imp) = false <-> model (startup imp) = None).
Proof.
  unfold startup. destruct imp as [|YOLO]; cbn [MODEL_AVAILABLE model].
  - repeat split; congruence.
  - destruct (YOLO "yolov8n.pt"); cbn [MODEL_AVAILABLE model];
      repeat split; congruence.
Qed.

(** When [/health] reports [model_loaded: false] the adapter finds nothing
    in any image. *)
Theorem health_false_means_degraded (g : Globals) :
  body (health g)
  = JDict [("status", JStr "healthy"); ("model_loaded", JBool false)] ->
  forall img, detect_objects g img = ok [].
Proof.
  unfold health, jsonify. cbn [body]. intros H img.
  injection H as H. unfold detect_objects.
  destruct (MODEL_AVAILABLE g); [|reflexivity].
  destruct (model g); [discriminate|reflexivity].
Qed.

(** ** The detections of a model call *)

Lemma Forall2_In_left {A B : Type} (R : A -> B -> Prop) l l' :
  Forall2 R l l' -> forall x, In x l -> exists y, R x y.
Proof.
  induction 1 as [|a b l l' Hab _ IH]; intros x Hin; [destruct Hin|].
  destruct Hin as [<-|Hin]; [eauto|exact (IH x Hin)].
Qed.

Lemma for_boxes_spec nm bs acc :
  match for_boxes nm bs acc with
  | ok ds =>
      exists tail,
        ds = (acc ++ tail)%list
        /\ Forall2 (fun p d => detection_of_box (fst p) (snd p) = ok d)
             (map (pair nm) bs) tail
  | raise _ =>
      Exists (fun p => exists e, detection_of_box (fst p) (snd p) = raise e)
        (map (pair nm) bs)
  end.
Proof.
  revert acc. induction bs as [|b bs IH]; intros acc; cbn [for_boxes map].
  - exists []. split; [now rewrite app_nil_r|constructor].
  - destruct (detection_of_box nm b) as [d|e] eqn:Hd; cbn [bind].
    + specialize (IH (acc ++ [d])%list).
      destruct (for_boxes nm bs (acc ++ [d])) as [ds|e'].
      * destruct IH as (tail & -> & Htail). exists (d :: tail). split.
        -- now rewrite <- app_assoc.
        -- constructor; [exact Hd|exact Htail].
      * apply Exists_cons_tl. exact IH.
    + apply Exists_cons_hd. exists e. exact Hd.
Qed.

Lemma for_results_spec results acc :
  match for_results results acc with
  | ok ds =>
      exists tail,
        ds = (acc ++ tail)%list
        /\ Forall2 (fun p d => detection_of_box (fst p) (snd p) = ok d)
             (all_boxes results) tail
  | raise _ =>
      Exists (fun p => exists e, detection_of_box (fst p) (snd p) = raise e)
        (all_boxes results)
  end.
Proof.
  revert acc. induction results as [|r rs IH]; intros acc;
    cbn [for_results all_boxes flat_map].
  - exists []. split; [now rewrite app_nil_r|constructor].
  - pose proof (for_boxes_spec (names r) (boxes r) acc) as Hb.
    destruct (for_boxes (names r) (boxes r) acc) as [ds1|e]; cbn [bind].
    + destruct Hb as (tail1 & -> & H1).
      specialize (IH (acc ++ tail1)%list).
      destruct (for_results rs (acc ++ tail1)) as [ds|e'].
      * destruct IH as (tail2 & -> & H2). exists (tail1 ++ tail2)%list. split.
        -- now rewrite <- app_assoc.
        -- apply Forall2_app; assumption.
      * apply Exists_app. right. exact IH.
    + apply Exists_app. left. exact Hb.
Qed.

(** When every box of a model call can be read, the adapter returns one
    detection per box, in the order of the results and of their boxes. *)
Theorem detect_objects_one_per_box (g : Globals) (img : image) m results :
  MODEL_AVAILABLE g = true -> model g = Some m ->
  m img conf_threshold iou_threshold = ok results ->
  Forall (fun p => exists d, detection_of_box (fst p) (snd p) = ok d)
    (all_boxes results) ->
  exists ds,
    detect_objects g img = ok ds
    /\ Forall2 (fun p d => detection_of_box (fst p) (snd p) = ok d)
         (all_boxes results) ds
    /\ List.length ds = List.length (all_boxes results).
Proof.
  intros Ha Hm Hcall Hgood. unfold detect_objects.
  rewrite Ha, Hm, Hcall. cbn [bind].
  pose proof (for_results_spec results []) as Hspec.
  destruct (for_results results []) as [ds|e]; cbn [try_except].
  - destruct Hspec as (tail & -> & Htail). exists tail.
    split; [reflexivity|]. split; [exact Htail|].
    symmetry. exact (Forall2_length Htail).
  - exfalso. apply Exists_exists in Hspec. destruct Hspec as (p & Hin & e' & Hbad).
    rewrite Forall_forall in Hgood. destruct (Hgood p Hin) as [d Hd]. congruence.
Qed.

(** One box that cannot be read (an empty tensor, a class id without a
    name) costs the whole answer: the adapter returns no detection at all,
    also for the boxes read before it. *)
Theorem detect_objects_all_or_nothing (g : Globals) (img : image) m results :
  MODEL_AVAILABLE g = true -> model g = Some m ->
  m img conf_threshold iou_threshold = ok results ->
  Exists (fun p => exists e, detection_of_box (fst p) (snd p) = raise e)
    (all_boxes results) ->
  detect_objects g img = ok [].
Proof.
  intros Ha Hm Hcall Hbad. unfold detect_objects.
  rewrite Ha, Hm, Hcall. cbn [bind].
  pose proof (for_results_spec results []) as Hspec.
  destruct (for_results results []) as [ds|e]; cbn [try_except]; [|reflexivity].
  exfalso. destruct Hspec as (tail & _ & Htail).
  apply Exists_exists in Hbad. destruct Hbad as (p & Hin & e & He).
  destruct (Forall2_In_left _ _ _ Htail p Hin) as (d & Hd). congruence.
Qed.

(** ** Bodies and fields the handlers do not expect *)

(** A body that is not a JSON object.  A falsy one ([null], [false], [0],
    the empty string, list or object) and a list or string without
    ["image"] in it are answered 400 "No image data provided"; a list or
    string with ["image"] in it and a true or non-zero scalar make the
    handler raise, and are answered 500.  Both handlers answer alike. *)
Theorem non_object_body (g : Globals) (req : Request) (data : json) :
  request_json req = ok data ->
  let missing :=
    ok {| status := 400;
          body := JDict [("error", JStr "No image data provided")] |} in
  let failed (r : result response) :=
    exists msg,
      r = ok {| status := 500; body := JDict [("error", JStr msg)] |} in
  (truthy data = false ->
   detect g req = missing /\ detect_stream g req = missing)
  /\ (forall l, data = JList l ->
        if existsb (is_str "image") l
        then failed (detect g req) /\ failed (detect_stream g req)
        else detect g req = missing /\ detect_stream g req = missing)
  /\ (forall s, data = JStr s ->
        if str_contains "image" s
        then failed (detect g req) /\ failed (detect_stream g req)
        else detect g req = missing /\ detect_stream g req = missing)
  /\ (truthy data = true ->
      (exists b, data = JBool b) \/ (exists z, data = JInt z)
      \/ (exists f, data = JFloat f) ->
      failed (detect g req) /\ failed (detect_stream g req)).
Proof.
  intros Hreq missing failed. unfold detect, detect_stream, missing, failed.
  rewrite Hreq. cbn [bind]. unfold no_image.
  split; [|split; [|split]].
  - intros ->. split; reflexivity.
  - intros l ->. destruct l as [|x l]; [split; reflexivity|].
    cbn [truthy negb py_in bind].
    destruct (existsb (is_str "image") (x :: l));
      cbn [negb getitem bind try_except]; split;
      first [reflexivity | eexists; reflexivity].
  - intros s ->. destruct s as [|c s]; [split; reflexivity|].
    cbn [truthy]. change (String.eqb (String c s) "") with false.
    cbn [negb py_in bind].
    destruct (str_contains "image" (String c s));
      cbn [negb getitem bind try_except]; split;
      first [reflexivity | eexists; reflexivity].
  - intros Htrue [[b ->]|[[z ->]|[f ->]]]; rewrite Htrue;
      cbn [negb py_in bind try_except]; split; eexists; reflexivity.
Qed.

(** An ['image'] value that is not a string (a number, [null], a list, an
    object) never decodes: both handlers answer 400 "Failed to decode
    image". *)
Theorem image_not_a_string (g : Globals) (req : Request) kv v :
  (forall s, v <> JStr s) ->
  request_json req = ok (JDict kv) ->
  dict_get kv "image" = Some v ->
  decode_image v = ok None
  /\ detect g req
     = ok {| status := 400;
             body := JDict [("error", JStr "Failed to decode image")] |}
  /\ detect_stream g req
     = ok {| status := 400;
             body := JDict [("error", JStr "Failed to decode image")] |}.
Proof.
  intros Hv Hreq Hget.
  assert (Hdec : decode_image v = ok None).
  { unfold decode_image, b64_input.
    destruct v as [| | | |s|l|fields]; try reflexivity.
    - exfalso. exact (Hv s eq_refl).
    - cbn [py_in bind]. destruct (existsb (is_str ",") l); reflexivity.
    - cbn [py_in bind]. destruct (dict_get fields ","); reflexivity. }
  split; [exact Hdec|].
  unfold detect, detect_stream. rewrite Hreq. cbn [bind].
  rewrite (no_image_dict kv v Hget). cbn [bind getitem]. rewrite Hget.
  cbn [bind]. rewrite Hdec. split; reflexivity.
Qed.

(** The two handlers reject the same requests with the same 400 answer. *)
Theorem bad_request_agreement (g : Globals) (req : Request) msg :
  detect g req
  = ok {| status := 400; body := JDict [("error", JStr msg)] |}
  <-> detect_stream g req
      = ok {| status := 400; body := JDict [("error", JStr msg)] |}.
Proof.
  unfold detect, detect_stream.
  destruct (request_json req) as [data|e]; cbn [bind try_except];
    [|split; discriminate].
  destruct (no_image data) as [[|]|e]; cbn [bind try_except];
    [reflexivity| |split; discriminate].
  destruct (getitem data "image") as [v|e]; cbn [bind try_except];
    [|split; discriminate].
  destruct (decode_image v) as [[img|]|e]; cbn [bind try_except];
    [|reflexivity|split; discriminate].
  destruct (detect_objects_total g img) as [ds ->]. cbn [bind try_except].
  destruct (stream_resize img) as [img'|e]; cbn [bind try_except];
    [|split; discriminate].
  destruct (detect_objects_total g img') as [ds' ->]. cbn [bind try_except].
  destruct (dict_get_default data "timestamp"); cbn [bind try_except];
    split; discriminate.
Qed.

(** [/detect] reads nothing of an object body but its ['image'] field, and
    [/detect/stream] nothing but ['image'] and ['timestamp']. *)
Theorem handlers_read_two_fields (g : Globals) (req1 req2 : Request) kv1 kv2 :
  request_json req1 = ok (JDict kv1) ->
  request_json req2 = ok (JDict kv2) ->
  dict_get kv1 "image" = dict_get kv2 "image" ->
  detect g req1 = detect g req2
  /\ (dict_get kv1 "timestamp" = dict_get kv2 "timestamp" ->
      detect_stream g req1 = detect_stream g req2).
Proof.
  intros H1 H2 Himg. unfold detect, detect_stream.
  rewrite H1, H2. cbn [bind].
  destruct (dict_get kv2 "image") as [v|] eqn:Hv2.
  - rewrite (no_image_dict kv1 v Himg), (no_image_dict kv2 v Hv2).
    cbn [bind getitem]. rewrite Himg, Hv2. cbn [bind].
    split; [reflexivity|]. intros Hts. cbn [dict_get_default].
    rewrite Hts. reflexivity.
  - rewrite (no_image_dict_missing kv1 Himg), (no_image_dict_missing kv2 Hv2).
    split; reflexivity.
Qed.

(** ** What the decoder accepts *)

(** The decoder never raises, and it returns an image exactly for a string
    whose base64 input decodes to bytes that open as that image. *)
Theorem decode_image_spec (v : json) :
  (decode_image v = ok None \/ exists img, decode_image v = ok (Some img))
  /\ forall img,
       decode_image v = ok (Some img)
       <-> exists s payload bytes,
             v = JStr s
             /\ b64_input (JStr s) = ok (JStr payload)
             /\ b64decode payload = ok bytes
             /\ Image_open bytes = ok img.
Proof.
  split.
  - destruct (decode_image_total v) as [[img|] H]; eauto.
  - intros img. split.
    + unfold decode_image. intros H.
      destruct (b64_input v) as [x|e] eqn:Hin; cbn [bind try_except] in H;
        [|discriminate].
      destruct x as [| | | |payload| |]; cbn [base64_b64decode bind try_except] in H;
        try discriminate.
      destruct (b64decode payload) as [bytes|e] eqn:Hb;
        cbn [bind try_except] in H; [|discriminate].
      destruct (Image_open bytes) as [img'|e] eqn:Ho;
        cbn [bind try_except] in H; [|discriminate].
      injection H as ->.
      assert (Hs : exists s, v = JStr s).
      { unfold b64_input in Hin.
        destruct v as [| | | |s|l|fields]; try discriminate; [eauto| |].
        - cbn [py_in bind] in Hin.
          destruct (existsb (is_str ",") l); discriminate.
        - cbn [py_in bind] in Hin.
          destruct (dict_get fields ","); discriminate. }
      destruct Hs as [s ->]. exists s, payload, bytes. repeat split; assumption.
    + intros (s & payload & bytes & -> & Hin & Hb & Ho).
      unfold decode_image. rewrite Hin. cbn [bind base64_b64decode].
      rewrite Hb. cbn [bind]. rewrite Ho. reflexivity.
Qed.

(** ** When the stream path answers *)

(** An image more than 640 times as long as it is wide, or as wide as it
    is long, is never detected on: its shorter side scales to 0, the
    resampler refuses, and [/detect/stream] answers 500. *)
Theorem stream_aspect_limit (g : Globals) (req : Request) kv v
    (img : image) w h :
  (forall i size, fst size < 1 \/ snd size < 1 ->
                  exists e, Image_resize i size = raise e) ->
  request_json req = ok (JDict kv) ->
  dict_get kv "image" = Some v ->
  decode_image v = ok (Some img) ->
  Image_size img = (w, h) ->
  0 < w < 2 ^ 31 -> 0 < h < 2 ^ 31 ->
  640 * w < Z.max w h \/ 640 * h < Z.max w h ->
  exists msg,
    detect_stream g req
    = ok {| status := 500; body := JDict [("error", JStr msg)] |}.
Proof.
  intros Hrefuse Hreq Hget Hdec Hsize Hw Hh Hthin.
  assert (HL : 640 < Z.max w h) by lia.
  rewrite (detect_stream_decoded g req kv v img Hreq Hget Hdec).
  destruct (stream_resize_spec img w h Hsize ltac:(lia) ltac:(lia)) as [_ Hbig].
  destruct (Hbig HL) as (nw & nh & _ & -> & Hnw0 & Hnh0 & Hnw & Hnh).
  destruct (Hrefuse img (nw, nh)) as [e ->].
  { cbn [fst snd]. destruct Hthin; [left|right]; nia. }
  cbn [bind try_except]. exists (str e). reflexivity.
Qed.

(** Above the cap, when both sides are more than 1/640 of the longer one,
    the size asked of the resampler has no empty side; [/detect/stream]
    then answers 200 when the resampler returns an image, and 500 with the
    resampler's message when it raises. *)
Theorem stream_nonempty_size (g : Globals) (req : Request) kv v
    (img : image) w h :
  request_json req = ok (JDict kv) ->
  dict_get kv "image" = Some v ->
  decode_image v = ok (Some img) ->
  Image_size img = (w, h) ->
  0 <= w < 2 ^ 31 -> 0 <= h < 2 ^ 31 ->
  640 < Z.max w h ->
  Z.max w h < 640 * w -> Z.max w h < 640 * h ->
  exists nw nh,
    new_size 640 (w, h) = ok (nw, nh)
    /\ 1 <= nw /\ 1 <= nh
    /\ stream_resize img = Image_resize img (nw, nh)
    /\ (forall img',
          Image_resize img (nw, nh) = ok img' ->
          exists ds,
            detect_objects g img' = ok ds
            /\ detect_stream g req
               = ok {| status := 200;
                       body := JDict [("detections", JList ds);
                                      ("count", JInt (Z.of_nat (List.length ds)));
                                      ("timestamp",
                                        match dict_get kv "timestamp" with
                                        | Some t => t
                                        | None => JNone
                                        end)] |})
    /\ (forall e,
          Image_resize img (nw, nh) = raise e ->
          detect_stream g req
          = ok {| status := 500; body := JDict [("error", JStr (str e))] |}).
Proof.
  intros Hreq Hget Hdec Hsize Hw Hh HL Hws Hhs.
  rewrite (detect_stream_decoded g req kv v img Hreq Hget Hdec).
  destruct (stream_resize_spec img w h Hsize Hw Hh) as [_ Hbig].
  destruct (Hbig HL) as (nw & nh & Hnew & Hcall & Hnw0 & Hnh0 & Hnw & Hnh).
  exists nw, nh. rewrite Hcall.
  split; [exact Hnew|]. split; [nia|]. split; [nia|]. split; [reflexivity|].
  split.
  - intros img' ->. cbn [bind].
    destruct (detect_objects_total g img') as [ds Hds]. exists ds.
    rewrite Hds. split; reflexivity.
  - intros e ->. reflexivity.
Qed.

(** Resizing twice changes nothing more: what the resizer returns is
    within the cap, so the resizer returns it as it is. *)
Theorem stream_resize_idempotent (img img' : image) w h :
  (forall i size i', Image_resize i size = ok i' -> Image_size i' = size) ->
  Image_size img = (w, h) ->
  0 <= w < 2 ^ 31 -> 0 <= h < 2 ^ 31 ->
  stream_resize img = ok img' ->
  stream_resize img' = ok img'.
Proof.
  intros Hresize Hsize Hw Hh Hrun.
  destruct (stream_resize_spec img w h Hsize Hw Hh) as [Hsmall Hbig].
  destruct (Z.le_gt_cases (Z.max w h) 640) as [Hle|Hgt].
  - rewrite (Hsmall Hle) in Hrun. injection Hrun as <-. exact (Hsmall Hle).
  - destruct (Hbig Hgt) as (nw & nh & _ & Hcall & Hnw0 & Hnh0 & Hnw & Hnh).
    rewrite Hrun in Hcall. symmetry in Hcall.
    pose proof (Hresize _ _ _ Hcall) as Hsize'.
    unfold stream_resize. rewrite Hsize'. cbn [fst snd].
    set (L := Z.max w h) in *.
    assert (w <= L) by (unfold L; lia). assert (h <= L) by (unfold L; lia).
    assert (nw <= 640) by nia. assert (nh <= 640) by nia.
    destruct (Z.ltb_spec 640 (Z.max nw nh)); [lia|reflexivity].
Qed.

(** On an image within the cap the two handlers report the same
    detections and the same count. *)
Theorem stream_matches_detect (g : Globals) (req : Request) kv v (img : image) :
  request_json req = ok (JDict kv) ->
  dict_get kv "image" = Some v ->
  decode_image v = ok (Some img) ->
  Z.max (fst (Image_size img)) (snd (Image_size img)) <= 640 ->
  exists ds,
    detect g req
    = ok {| status := 200;
            body := JDict [("success", JBool true);
                           ("detections", JList ds);
                           ("count", JInt (Z.of_nat (List.length ds)))] |}
    /\ detect_stream g req
       = ok {| status := 200;
               body := JDict [("detections", JList ds);
                              ("count", JInt (Z.of_nat (List.length ds)));
                              ("timestamp", match dict_get kv "timestamp" with
                                            | Some t => t
                                            | None => JNone
                                            end)] |}.
Proof.
  intros Hreq Hget Hdec Hsmall.
  rewrite (detect_decoded g req kv v img Hreq Hget Hdec).
  rewrite (detect_stream_decoded g req kv v img Hreq Hget Hdec).
  unfold stream_resize.
  destruct (Z.ltb_spec 640 (Z.max (fst (Image_size img)) (snd (Image_size img))));
    [lia|].
  cbn [bind]. destruct (detect_objects_total g img) as [ds ->].
  exists ds. split; reflexivity.
Qed.

(** ** The shape of every answer *)

(** Every exception is caught at the endpoint.  [/detect] always answers,
    with one of: 200 and [success], [detections], [count]; 400 and one of
    its two messages; 500 and the message of the exception that was raised
    on its way.  The same holds for [/detect/stream], with [timestamp] in
    place of [success]. *)
Theorem handlers_response_shape (g : Globals) (req : Request) :
  (exists r,
      detect g req = ok r
      /\ ((exists ds,
              r = {| status := 200;
                     body := JDict [("success", JBool true);
                                    ("detections", JList ds);
                                    ("count", JInt (Z.of_nat (List.length ds)))] |})
          \/ r = {| status := 400;
                    body := JDict [("error", JStr "No image data provided")] |}
          \/ r = {| status := 400;
                    body := JDict [("error", JStr "Failed to decode image")] |}
          \/ exists e,
               detect_raises req e
               /\ r = {| status := 500;
                         body := JDict [("error", JStr (str e))] |}))
  /\ (exists r,
        detect_stream g req = ok r
        /\ ((exists ds t,
                r = {| status := 200;
                       body := JDict [("detections", JList ds);
                                      ("count", JInt (Z.of_nat (List.length ds)));
                                      ("timestamp", t)] |})
            \/ r = {| status := 400;
                      body := JDict [("error", JStr "No image data provided")] |}
            \/ r = {| status := 400;
                      body := JDict [("error", JStr "Failed to decode image")] |}
            \/ exists e,
                 detect_stream_raises req e
                 /\ r = {| status := 500;
                           body := JDict [("error", JStr (str e))] |})).
Proof.
  split.
  - unfold detect, detect_raises.
    destruct (request_json req) as [data|e]; cbn [bind try_except].
    2: { eexists. split; [reflexivity|]. do 3 right. exists e. split; eauto. }
    destruct (no_image data) as [[|]|e] eqn:Hno; cbn [bind try_except].
    + eexists. split; [reflexivity|]. right. left. reflexivity.
    + destruct (getitem data "image") as [v|e] eqn:Hget; cbn [bind try_except].
      2: { eexists. split; [reflexivity|]. do 3 right. exists e.
           split; [right; exists data; eauto|reflexivity]. }
      destruct (decode_image_total v) as [[img|] ->]; cbn [bind try_except].
      * destruct (detect_objects_total g img) as [ds ->]. cbn [bind try_except].
        eexists. split; [reflexivity|]. left. exists ds. reflexivity.
      * eexists. split; [reflexivity|]. right. right. left. reflexivity.
    + eexists. split; [reflexivity|]. do 3 right. exists e.
      split; [right; exists data; eauto|reflexivity].
  - unfold detect_stream, detect_stream_raises, detect_raises.
    destruct (request_json req) as [data|e]; cbn [bind try_except].
    2: { eexists. split; [reflexivity|]. do 3 right. exists e. split; eauto. }
    destruct (no_image data) as [[|]|e] eqn:Hno; cbn [bind try_except].
    + eexists. split; [reflexivity|]. right. left. reflexivity.
    + destruct (getitem data "image") as [v|e] eqn:Hget; cbn [bind try_except].
      2: { eexists. split; [reflexivity|]. do 3 right. exists e.
           split; [left; right; exists data; eauto|reflexivity]. }
      destruct (decode_image v) as [[img|]|e] eqn:Hdec; cbn [bind try_except].
      * destruct (stream_resize img) as [img'|e] eqn:Hrun;
          cbn [bind try_except].
        2: { eexists. split; [reflexivity|]. do 3 right. exists e.
             split; [right; exists data, v, img; auto|reflexivity]. }
        destruct (detect_objects_total g img') as [ds ->].
        cbn [bind try_except].
        destruct data as [| | | | |l|kv]; try discriminate Hget.
        cbn [dict_get_default bind try_except].
        eexists. split; [reflexivity|]. left. eexists ds, _. reflexivity.
      * eexists. split; [reflexivity|]. right. right. left. reflexivity.
      * destruct (decode_image_total v) as [r Hr]. congruence.
    + eexists. split; [reflexivity|]. do 3 right. exists e.
      split; [left; right; exists data; eauto|reflexivity].
Qed.

End Properties.

(** * The decoder's payload *)

Lemma split_cons sep s : exists seg segs, split sep s = seg :: segs.
Proof.
  destruct s as [|c rest]; cbn [split]; [eauto|].
  destruct (Ascii.eqb c sep); [eauto|].
  destruct (split sep rest); eauto.
Qed.

Lemma str_contains_char sep s :
  str_contains (String sep "") s
  = match after_first sep s with Some _ => true | None => false end.
Proof.
  induction s as [|c rest IH]; [reflexivity|].
  cbn [str_contains String.prefix after_first].
  destruct (ascii_dec sep c) as [->|Hne].
  - rewrite Ascii.eqb_refl. destruct rest; reflexivity.
  - destruct (Ascii.eqb_spec c sep) as [->|_]; [congruence|].
    cbn [orb]. exact IH.
Qed.

Lemma split_no_sep sep s : after_first sep s = None -> split sep s = [s].
Proof.
  induction s as [|c rest IH]; [reflexivity|].
  cbn [after_first split]. destruct (Ascii.eqb c sep); [discriminate|].
  intros H. now rewrite (IH H).
Qed.

Lemma split_after_first sep s rest :
  after_first sep s = Some rest ->
  nth_error (split sep s) 1 = Some (hd "" (split sep rest)).
Proof.
  induction s as [|c s' IH]; [discriminate|].
  cbn [after_first split]. destruct (Ascii.eqb c sep).
  - intros H. injection H as ->.
    destruct (split_cons sep rest) as (seg & segs & ->). reflexivity.
  - intros H. specialize (IH H).
    destruct (split_cons sep s') as (seg & segs & Hs). rewrite Hs in *.
    exact IH.
Qed.

(** What the decoder hands to base64 for a string with a comma: the text
    between the first comma and the next one. *)
Lemma b64_input_comma s rest :
  after_first "," s = Some rest ->
  b64_input (JStr s) = ok (JStr (hd "" (split "," rest))).
Proof.
  intros H. unfold b64_input. cbn [py_in bind].
  rewrite str_contains_char, H. unfold list_getitem. cbn [bind].
  now rewrite (split_after_first _ _ _ H).
Qed.

(** The part of C1 the code keeps: without a comma the whole string is
    decoded, and with exactly one comma what follows it. *)
Lemma b64_input_at_most_one_comma s :
  (after_first "," s = None -> b64_input (JStr s) = ok (JStr s))
  /\ (forall rest,
        after_first "," s = Some rest -> after_first "," rest = None ->
        b64_input (JStr s) = ok (JStr rest)).
Proof.
  split.
  - intros H. unfold b64_input. cbn [py_in bind].
    now rewrite str_contains_char, H.
  - intros rest H Hrest. rewrite (b64_input_comma s rest H).
    now rewrite (split_no_sep _ _ Hrest).
Qed.

Lemma after_first_header sep hdr payload :
  after_first sep hdr = None ->
  after_first sep (hdr ++ String sep payload) = Some payload.
Proof.
  induction hdr as [|c hdr IH]; cbn [String.append after_first].
  - intros _. now rewrite Ascii.eqb_refl.
  - destruct (Ascii.eqb c sep); [discriminate|exact IH].
Qed.

(** A data-URL header makes no difference: with no comma in the header nor
    in the payload, the string [header,payload] decodes as the payload
    alone does. *)
Theorem decode_image_strips_header {E : Externals} (hdr payload : string) :
  after_first "," hdr = None ->
  after_first "," payload = None ->
  decode_image (JStr (hdr ++ "," ++ payload)) = decode_image (JStr payload).
Proof.
  intros Hhdr Hp. unfold decode_image.
  assert (Hfull : b64_input (JStr (hdr ++ "," ++ payload)) = ok (JStr payload)).
  { unfold b64_input. cbn [py_in bind].
    pose proof (after_first_header "," hdr payload Hhdr) as Hafter.
    change ("," ++ payload) with (String "," payload).
    rewrite str_contains_char, Hafter. unfold list_getitem. cbn [bind].
    rewrite (split_after_first _ _ _ Hafter), (split_no_sep _ _ Hp).
    reflexivity. }
  assert (Hbare : b64_input (JStr payload) = ok (JStr payload)).
  { unfold b64_input. cbn [py_in bind]. now rewrite str_contains_char, Hp. }
  rewrite Hfull, Hbare. reflexivity.
Qed.

(** C1, where the code departs from it.  For
    ["data:image/png;base64,AAAA,BBBB"] the text after the first comma is
    ["AAAA,BBBB"], but [split(',')[1]] hands only ["AAAA"] to the base64
    decoder: what follows a second comma is dropped too. *)
Theorem decode_image_second_comma :
  after_first "," "data:image/png;base64,AAAA,BBBB" = Some "AAAA,BBBB"
  /\ b64_input (JStr "data:image/png;base64,AAAA,BBBB") = ok (JStr "AAAA")
  /\ forall (E : Externals),
       @decode_image E (JStr "data:image/png;base64,AAAA,BBBB")
       = @decode_image E (JStr "AAAA").
Proof.
  split; [reflexivity|]. split; [reflexivity|]. intros E. reflexivity.
Qed.

(** * The resizer does not round to nearest *)


(** C2, refuted as stated: for a 1000 x 998 image the new height is 638,
    while the integer nearest to [640 * 998 / 1000 = 638.72] is 639. *)
Lemma resize_rounds_down :
  exists nw nh,
    new_size 640 (1000, 998) = ok (nw, nh)
    /\ nh = 638
    /\ nearest_pixel 640 1000 998 639
    /\ ~ nearest_pixel 640 1000 998 nh.
Proof.
  exists 640, 638. split; [vm_compute; reflexivity|]. split; [reflexivity|].
  unfold nearest_pixel. split; lia.
Qed.

(** * A request without a body *)


(** * The theorems at concrete requests *)

(** C2 at a 1000 x 998 image. *)
Lemma stream_resize_truncates_witness :
  (@Image_size (fixed_size_images (1000, 998)) (1000, 998) = (1000, 998)
   /\ 0 <= 1000 < 2 ^ 31 /\ 0 <= 998 < 2 ^ 31)
  /\ exists nw nh,
       new_size 640 (1000, 998) = ok (nw, nh)
       /\ @stream_resize (fixed_size_images (1000, 998)) (1000, 998)
          = @Image_resize (fixed_size_images (1000, 998)) (1000, 998) (nw, nh)
       /\ (nw = 640 * 1000 / Z.max 1000 998
           \/ (nw = 640 * 1000 / Z.max 1000 998 - 1
               /\ (640 * 1000) mod Z.max 1000 998 = 0))
       /\ (nh = 640 * 998 / Z.max 1000 998
           \/ (nh = 640 * 998 / Z.max 1000 998 - 1
               /\ (640 * 998) mod Z.max 1000 998 = 0)).
Proof.
  assert (H : @Image_size (fixed_size_images (1000, 998)) (1000, 998) = (1000, 998)
              /\ 0 <= 1000 < 2 ^ 31 /\ 0 <= 998 < 2 ^ 31)
    by (split; [reflexivity|split; split; vm_compute; congruence]).
  split; [exact H|].
  destruct H as (Hsize & Hw & Hh).
  exact (proj2 (stream_resize_truncates (E := fixed_size_images (1000, 998))
                  (1000, 998) 1000 998 Hsize Hw Hh)
           ltac:(vm_compute; reflexivity)).
Defined.

(** The reference collaborator keeps Pillow's contract for [resize]. *)
Lemma fixed_size_resize_size size :
  forall i new i',
    @Image_resize (fixed_size_images size) i new = ok i' ->
    @Image_size (fixed_size_images size) i' = new.
Proof.
  intros i new i'. cbn [Image_resize Image_size fixed_size_images].
  destruct ((fst new <? 1) || (snd new <? 1)); [discriminate|].
  intros H. injection H as <-. reflexivity.
Defined.

Lemma fixed_size_resize_refuses size :
  forall i new,
    fst new < 1 \/ snd new < 1 ->
    exists e, @Image_resize (fixed_size_images size) i new = raise e.
Proof.
  intros i new Hempty. cbn [Image_resize fixed_size_images].
  assert (Hb : (fst new <? 1) || (snd new <? 1) = true).
  { apply orb_true_iff. destruct Hempty as [H|H]; [left|right];
      apply Z.ltb_lt; exact H. }
  rewrite Hb. eauto.
Defined.

(** C3 at a 1280 x 720 image, which reaches the detector as 640 x 360. *)
Lemma stream_detector_input_witness :
  ((forall i new i',
       @Image_resize (fixed_size_images (1280, 720)) i new = ok i' ->
       @Image_size (fixed_size_images (1280, 720)) i' = new)
   /\ request_json stamped_request = ok (JDict stamped_fields)
   /\ dict_get stamped_fields "image" = Some (JStr "AAAA")
   /\ @decode_image (fixed_size_images (1280, 720)) (JStr "AAAA")
      = ok (Some (1280, 720))
   /\ 0 <= 1280 < 2 ^ 31 /\ 0 <= 720 < 2 ^ 31 /\ 640 < Z.max 1280 720)
  /\ @stream_resize (fixed_size_images (1280, 720)) (1280, 720) = ok (640, 360)
  /\ ((exists e,
         @stream_resize (fixed_size_images (1280, 720)) (1280, 720) = raise e
         /\ detect_stream (person_model (1280, 720)) stamped_request
            = ok {| status := 500; body := JDict [("error", JStr (str e))] |})
      \/ (exists (img' : @image (fixed_size_images (1280, 720))) nw nh ds,
            @stream_resize (fixed_size_images (1280, 720)) (1280, 720) = ok img'
            /\ detect_objects (person_model (1280, 720)) img' = ok ds
            /\ detect_stream (person_model (1280, 720)) stamped_request
               = ok {| status := 200;
                       body := JDict [("detections", JList ds);
                                      ("count", JInt (Z.of_nat (List.length ds)));
                                      ("timestamp",
                                        match dict_get stamped_fields "timestamp" with
                                        | Some t => t
                                        | None => JNone
                                        end)] |}
            /\ @Image_size (fixed_size_images (1280, 720)) img' = (nw, nh)
            /\ Z.max nw nh <= 640
            /\ Z.abs (nw * Z.max 1280 720 - 640 * 1280) <= Z.max 1280 720
            /\ Z.abs (nh * Z.max 1280 720 - 640 * 720) <= Z.max 1280 720
            /\ Z.abs (nw * 720 - nh * 1280) <= Z.max 1280 720)).
Proof.
  split; [|split].
  - split; [apply fixed_size_resize_size|].
    repeat split; vm_compute; congruence.
  - vm_compute. reflexivity.
  - apply (stream_detector_input (E := fixed_size_images (1280, 720))
             (person_model (1280, 720)) stamped_request stamped_fields
             (JStr "AAAA") (1280, 720) 1280 720).
    + apply fixed_size_resize_size.
    + reflexivity.
    + reflexivity.
    + reflexivity.
    + reflexivity.
    + split; vm_compute; congruence.
    + split; vm_compute; congruence.
    + vm_compute. reflexivity.
Defined.


(** C6 at the stamped request, with a model that finds one person. *)
Lemma detect_success_witness :
  (request_json stamped_request = ok (JDict stamped_fields)
   /\ dict_get stamped_fields "image" = Some (JStr "AAAA")
   /\ @decode_image (fixed_size_images (800, 600)) (JStr "AAAA")
      = ok (Some (800, 600)))
  /\ exists ds,
       detect_objects (person_model (800, 600)) (800, 600) = ok ds
       /\ List.length ds = 1%nat
       /\ detect (person_model (800, 600)) stamped_request
          = ok {| status := 200;
                  body := JDict [("success", JBool true);
                                 ("detections", JList ds);
                                 ("count", JInt 1)] |}.
Proof.
  split; [repeat split|].
  destruct (detect_success (E := fixed_size_images (800, 600))
              (person_model (800, 600)) stamped_request stamped_fields
              (JStr "AAAA") (800, 600) eq_refl eq_refl eq_refl)
    as (ds & Hds & Hrun).
  exists ds.
  assert (Hlen : List.length ds = 1%nat).
  { vm_compute in Hds. injection Hds as <-. reflexivity. }
  split; [exact Hds|]. split; [exact Hlen|].
  rewrite Hrun, Hlen. reflexivity.
Defined.

(** C7 at the stamped request, without the detection library. *)
Lemma detect_degraded_witness :
  ((MODEL_AVAILABLE (no_model (800, 600)) = false
    \/ model (no_model (800, 600)) = None)
   /\ request_json stamped_request = ok (JDict stamped_fields)
   /\ dict_get stamped_fields "image" = Some (JStr "AAAA")
   /\ @decode_image (fixed_size_images (800, 600)) (JStr "AAAA")
      = ok (Some (800, 600)))
  /\ detect (no_model (800, 600)) stamped_request
     = ok {| status := 200;
             body := JDict [("success", JBool true);
                            ("detections", JList []);
                            ("count", JInt 0)] |}.
Proof.
  split; [split; [left; reflexivity|repeat split]|].
  apply (detect_degraded (E := fixed_size_images (800, 600))
           (no_model (800, 600)) stamped_request stamped_fields
           (JStr "AAAA") (800, 600)); try reflexivity.
  left. reflexivity.
Defined.

(** C8 at the stamped request: the timestamp 12345 comes back. *)
Lemma detect_stream_echoes_timestamp_witness :
  (detect_stream (no_model (320, 240)) stamped_request
   = ok {| status := 200;
           body := JDict [("detections", JList []);
                          ("count", JInt 0);
                          ("timestamp", JInt 12345)] |}
   /\ status {| status := 200;
                body := JDict [("detections", JList []);
                               ("count", JInt 0);
                               ("timestamp", JInt 12345)] |} = 200)
  /\ exists kv ds,
       request_json stamped_request = ok (JDict kv)
       /\ body {| status := 200;
                  body := JDict [("detections", JList []);
                                 ("count", JInt 0);
                                 ("timestamp", JInt 12345)] |}
          = JDict [("detections", JList ds);
                   ("count", JInt (Z.of_nat (List.length ds)));
                   ("timestamp", match dict_get kv "timestamp" with
                                 | Some t => t
                                 | None => JNone
                                 end)]
       /\ (forall fields,
             body {| status := 200;
                     body := JDict [("detections", JList []);
                                    ("count", JInt 0);
                                    ("timestamp", JInt 12345)] |}
             = JDict fields ->
             dict_get fields "success" = None).
Proof.
  split; [split; reflexivity|].
  apply (detect_stream_echoes_timestamp (E := fixed_size_images (320, 240))
           (no_model (320, 240)) stamped_request); reflexivity.
Defined.

(** C10 at a 1 x 1000 image. *)
Lemma stream_zero_dimension_witness :
  ((forall i new,
       fst new < 1 \/ snd new < 1 ->
       exists e, @Image_resize (fixed_size_images (1, 1000)) i new = raise e)
   /\ request_json stamped_request = ok (JDict stamped_fields)
   /\ dict_get stamped_fields "image" = Some (JStr "AAAA")
   /\ @decode_image (fixed_size_images (1, 1000)) (JStr "AAAA")
      = ok (Some (1, 1000))
   /\ @Image_size (fixed_size_images (1, 1000)) (1, 1000) = (1, 1000))
  /\ 640 < Z.max 1 1000
  /\ new_size 640 (1, 1000) = ok (0, 640)
  /\ exists msg,
       detect_stream (person_model (1, 1000)) stamped_request
       = ok {| status := 500; body := JDict [("error", JStr msg)] |}.
Proof.
  split; [split; [apply fixed_size_resize_refuses|repeat split]|].
  apply (stream_zero_dimension (E := fixed_size_images (1, 1000))
           (person_model (1, 1000)) stamped_request stamped_fields
           (JStr "AAAA") (1, 1000)); try reflexivity.
  apply fixed_size_resize_refuses.
Defined.

(** * Further properties at concrete inputs *)

(** The longer side of a 1077 x 1077 image comes out as 639. *)
Lemma resized_longer_side_witness :
  (0 <= 1077 < 2 ^ 31 /\ 640 < Z.max 1077 1077)
  /\ new_size 640 (1077, 1077) = ok (639, 639)
  /\ exists nw nh,
       new_size 640 (1077, 1077) = ok (nw, nh)
       /\ 639 <= Z.max nw nh <= 640
       /\ (1077 <= 1077 -> nw <= nh) /\ (1077 <= 1077 -> nh <= nw).
Proof.
  assert (H : 0 <= 1077 < 2 ^ 31 /\ 640 < Z.max 1077 1077)
    by (split; [split|]; vm_compute; congruence).
  split; [exact H|]. split; [vm_compute; reflexivity|].
  exact (resized_longer_side 1077 1077 (proj1 H) (proj1 H) (proj2 H)).
Defined.

(** A 1280 x 720 image shrinks on both sides. *)
Lemma resize_never_enlarges_witness :
  (0 <= 1280 < 2 ^ 31 /\ 0 <= 720 < 2 ^ 31 /\ 640 < Z.max 1280 720)
  /\ exists nw nh,
       new_size 640 (1280, 720) = ok (nw, nh)
       /\ 0 <= nw <= 1280 /\ 0 <= nh <= 720
       /\ (0 < 1280 -> nw < 1280) /\ (0 < 720 -> nh < 720).
Proof.
  assert (H : 0 <= 1280 < 2 ^ 31 /\ 0 <= 720 < 2 ^ 31 /\ 640 < Z.max 1280 720)
    by (split; [split|split; [split|]]; vm_compute; congruence).
  split; [exact H|].
  exact (resize_never_enlarges 1280 720 (proj1 H) (proj1 (proj2 H))
           (proj2 (proj2 H))).
Defined.

(** Without the detection library [/health] says so, and the adapter finds
    nothing. *)
Lemma health_false_means_degraded_witness :
  body (health (no_model (800, 600)))
  = JDict [("status", JStr "healthy"); ("model_loaded", JBool false)]
  /\ forall img, detect_objects (no_model (800, 600)) img = ok [].
Proof.
  split; [reflexivity|].
  exact (health_false_means_degraded (E := fixed_size_images (800, 600))
           (no_model (800, 600)) eq_refl).
Defined.

(** The model that finds one person gives one detection. *)
Lemma detect_objects_one_per_box_witness :
  (MODEL_AVAILABLE (person_model (800, 600)) = true
   /\ Forall (fun p => exists d, detection_of_box (fst p) (snd p) = ok d)
        (all_boxes [{| names := [(0, "person")]; boxes := [person_box] |}]))
  /\ exists ds,
       detect_objects (person_model (800, 600)) (800, 600) = ok ds
       /\ Forall2 (fun p d => detection_of_box (fst p) (snd p) = ok d)
            (all_boxes [{| names := [(0, "person")]; boxes := [person_box] |}])
            ds
       /\ List.length ds
          = List.length
              (all_boxes [{| names := [(0, "person")]; boxes := [person_box] |}]).
Proof.
  assert (H : Forall (fun p => exists d, detection_of_box (fst p) (snd p) = ok d)
                (all_boxes [{| names := [(0, "person")];
                               boxes := [person_box] |}])).
  { repeat constructor. eexists. vm_compute. reflexivity. }
  split; [split; [reflexivity|exact H]|].
  exact (detect_objects_one_per_box (E := fixed_size_images (800, 600))
           (person_model (800, 600)) (800, 600)
           (fun _ _ _ => ok [{| names := [(0, "person")];
                                boxes := [person_box] |}])
           _ eq_refl eq_refl eq_refl H).
Defined.

(** The box without a class name loses the person found before it. *)
Lemma detect_objects_all_or_nothing_witness :
  Exists (fun p => exists e, detection_of_box (fst p) (snd p) = raise e)
    (all_boxes stray_results)
  /\ detect_objects (stray_model (800, 600)) (800, 600) = ok [].
Proof.
  assert (H : Exists (fun p => exists e,
                        detection_of_box (fst p) (snd p) = raise e)
                (all_boxes stray_results)).
  { apply Exists_cons_tl, Exists_cons_hd. eexists. vm_compute. reflexivity. }
  split; [exact H|].
  exact (detect_objects_all_or_nothing (E := fixed_size_images (800, 600))
           (stray_model (800, 600)) (800, 600)
           (fun _ _ _ => ok stray_results) stray_results
           eq_refl eq_refl eq_refl H).
Defined.

(** The body [5] is answered 500, the body [["image"]] too, and the body
    [[]] 400. *)
Lemma non_object_body_witness :
  (exists msg,
      detect (no_model (800, 600)) {| request_json := ok (JInt 5) |}
      = ok {| status := 500; body := JDict [("error", JStr msg)] |})
  /\ (exists msg,
        detect_stream (no_model (800, 600))
          {| request_json := ok (JList [JStr "image"]) |}
        = ok {| status := 500; body := JDict [("error", JStr msg)] |})
  /\ detect (no_model (800, 600)) {| request_json := ok (JList []) |}
     = ok {| status := 400;
             body := JDict [("error", JStr "No image data provided")] |}.
Proof.
  split; [|split].
  - apply (proj2 (proj2 (proj2
             (non_object_body (E := fixed_size_images (800, 600))
                (no_model (800, 600)) {| request_json := ok (JInt 5) |}
                (JInt 5) eq_refl))) eq_refl).
    right. left. exists 5. reflexivity.
  - exact (proj2 (proj1 (proj2
             (non_object_body (E := fixed_size_images (800, 600))
                (no_model (800, 600))
                {| request_json := ok (JList [JStr "image"]) |}
                (JList [JStr "image"]) eq_refl))
             [JStr "image"] eq_refl)).
  - exact (proj1 (proj1
             (non_object_body (E := fixed_size_images (800, 600))
                (no_model (800, 600)) {| request_json := ok (JList []) |}
                (JList []) eq_refl)
             eq_refl)).
Defined.

(** The body [{"image": 5}] is answered 400 "Failed to decode image". *)
Lemma image_not_a_string_witness :
  ((forall s, JInt 5 <> JStr s)
   /\ dict_get [("image", JInt 5)] "image" = Some (JInt 5))
  /\ detect (person_model (800, 600))
       {| request_json := ok (JDict [("image", JInt 5)]) |}
     = ok {| status := 400;
             body := JDict [("error", JStr "Failed to decode image")] |}.
Proof.
  assert (H : forall s, JInt 5 <> JStr s) by (intros s; discriminate).
  split; [split; [exact H|reflexivity]|].
  exact (proj1 (proj2
           (image_not_a_string (E := fixed_size_images (800, 600))
              (person_model (800, 600))
              {| request_json := ok (JDict [("image", JInt 5)]) |}
              [("image", JInt 5)] (JInt 5) H eq_refl eq_refl))).
Defined.

(** A field [camera] changes neither answer. *)
Lemma handlers_read_two_fields_witness :
  dict_get (("camera", JStr "front") :: stamped_fields) "image"
  = dict_get stamped_fields "image"
  /\ detect (person_model (800, 600))
       {| request_json := ok (JDict (("camera", JStr "front") :: stamped_fields)) |}
     = detect (person_model (800, 600)) stamped_request
  /\ detect_stream (person_model (800, 600))
       {| request_json := ok (JDict (("camera", JStr "front") :: stamped_fields)) |}
     = detect_stream (person_model (800, 600)) stamped_request.
Proof.
  split; [reflexivity|].
  destruct (handlers_read_two_fields (E := fixed_size_images (800, 600))
              (person_model (800, 600))
              {| request_json :=
                   ok (JDict (("camera", JStr "front") :: stamped_fields)) |}
              stamped_request
              (("camera", JStr "front") :: stamped_fields) stamped_fields
              eq_refl eq_refl eq_refl) as [Hd Hs].
  split; [exact Hd|exact (Hs eq_refl)].
Defined.

(** The PNG data-URL header before ["AAAA"]. *)
Lemma decode_image_strips_header_witness :
  (after_first "," "data:image/png;base64" = None
   /\ after_first "," "AAAA" = None)
  /\ @decode_image (fixed_size_images (800, 600))
       (JStr "data:image/png;base64,AAAA")
     = @decode_image (fixed_size_images (800, 600)) (JStr "AAAA").
Proof.
  split; [split; reflexivity|].
  exact (decode_image_strips_header (E := fixed_size_images (800, 600))
           "data:image/png;base64" "AAAA" eq_refl eq_refl).
Defined.

(** A 2 x 2000 image is answered 500. *)
Lemma stream_aspect_limit_witness :
  (@decode_image (fixed_size_images (2, 2000)) (JStr "AAAA")
   = ok (Some (2, 2000))
   /\ 0 < 2 < 2 ^ 31 /\ 0 < 2000 < 2 ^ 31
   /\ (640 * 2 < Z.max 2 2000 \/ 640 * 2000 < Z.max 2 2000))
  /\ exists msg,
       detect_stream (person_model (2, 2000)) stamped_request
       = ok {| status := 500; body := JDict [("error", JStr msg)] |}.
Proof.
  assert (H : 0 < 2 < 2 ^ 31 /\ 0 < 2000 < 2 ^ 31
              /\ (640 * 2 < Z.max 2 2000 \/ 640 * 2000 < Z.max 2 2000)).
  { split; [split|split; [split|left]]; vm_compute; congruence. }
  split; [split; [reflexivity|exact H]|].
  exact (stream_aspect_limit (E := fixed_size_images (2, 2000))
           (person_model (2, 2000)) stamped_request stamped_fields
           (JStr "AAAA") (2, 2000) 2 2000
           (fixed_size_resize_refuses (2, 2000)) eq_refl eq_refl eq_refl eq_refl
           (proj1 H) (proj1 (proj2 H)) (proj2 (proj2 H))).
Defined.

(** The reference collaborator resizes to every size of at least 1 x 1. *)
Lemma fixed_size_resize_accepts size :
  forall i new,
    1 <= fst new -> 1 <= snd new ->
    exists i', @Image_resize (fixed_size_images size) i new = ok i'.
Proof.
  intros i new Hw Hh. cbn [Image_resize fixed_size_images].
  assert (Hb : (fst new <? 1) || (snd new <? 1) = false).
  { apply orb_false_iff. split; apply Z.ltb_ge; assumption. }
  rewrite Hb. eauto.
Defined.

(** A 1280 x 720 image is asked to become 640 x 360 and is answered 200. *)
Lemma stream_nonempty_size_witness :
  (@decode_image (fixed_size_images (1280, 720)) (JStr "AAAA")
   = ok (Some (1280, 720))
   /\ 0 <= 1280 < 2 ^ 31 /\ 0 <= 720 < 2 ^ 31
   /\ 640 < Z.max 1280 720
   /\ Z.max 1280 720 < 640 * 1280 /\ Z.max 1280 720 < 640 * 720)
  /\ new_size 640 (1280, 720) = ok (640, 360)
  /\ exists nw nh,
       new_size 640 (1280, 720) = ok (nw, nh)
       /\ 1 <= nw /\ 1 <= nh
       /\ exists ds,
            detect_stream (person_model (1280, 720)) stamped_request
            = ok {| status := 200;
                    body := JDict [("detections", JList ds);
                                   ("count", JInt (Z.of_nat (List.length ds)));
                                   ("timestamp", JInt 12345)] |}.
Proof.
  assert (H : 0 <= 1280 < 2 ^ 31 /\ 0 <= 720 < 2 ^ 31
              /\ 640 < Z.max 1280 720
              /\ Z.max 1280 720 < 640 * 1280 /\ Z.max 1280 720 < 640 * 720).
  { split; [split|split; [split|split; [|split]]]; vm_compute; congruence. }
  split; [split; [reflexivity|exact H]|]. split; [vm_compute; reflexivity|].
  destruct H as (Hw & Hh & HL & Hws & Hhs).
  destruct (stream_nonempty_size (E := fixed_size_images (1280, 720))
              (person_model (1280, 720)) stamped_request stamped_fields
              (JStr "AAAA") (1280, 720) 1280 720
              eq_refl eq_refl eq_refl eq_refl Hw Hh HL Hws Hhs)
    as (nw & nh & Hnew & Hnw & Hnh & _ & Hok & _).
  exists nw, nh. split; [exact Hnew|]. split; [exact Hnw|]. split; [exact Hnh|].
  destruct (fixed_size_resize_accepts (1280, 720) (1280, 720) (nw, nh) Hnw Hnh)
    as [img' Hres].
  destruct (Hok img' Hres) as (ds & _ & Hrun). exists ds. exact Hrun.
Defined.

(** The 640 x 360 image a 1280 x 720 one becomes is left alone. *)
Lemma stream_resize_idempotent_witness :
  (0 <= 1280 < 2 ^ 31 /\ 0 <= 720 < 2 ^ 31
   /\ @stream_resize (fixed_size_images (1280, 720)) (1280, 720)
      = ok (640, 360))
  /\ @stream_resize (fixed_size_images (1280, 720)) (640, 360) = ok (640, 360).
Proof.
  assert (H : 0 <= 1280 < 2 ^ 31 /\ 0 <= 720 < 2 ^ 31
              /\ @stream_resize (fixed_size_images (1280, 720)) (1280, 720)
                 = ok (640, 360)).
  { split; [split|split; [split|]]; vm_compute; congruence. }
  split; [exact H|].
  exact (stream_resize_idempotent (E := fixed_size_images (1280, 720))
           (1280, 720) (640, 360) 1280 720
           (fixed_size_resize_size (1280, 720)) eq_refl
           (proj1 H) (proj1 (proj2 H)) (proj2 (proj2 H))).
Defined.

(** On a 320 x 240 image both handlers report the one person. *)
Lemma stream_matches_detect_witness :
  (@decode_image (fixed_size_images (320, 240)) (JStr "AAAA")
   = ok (Some (320, 240))
   /\ Z.max 320 240 <= 640)
  /\ exists ds,
       detect (person_model (320, 240)) stamped_request
       = ok {| status := 200;
               body := JDict [("success", JBool true);
                              ("detections", JList ds);
                              ("count", JInt (Z.of_nat (List.length ds)))] |}
       /\ detect_stream (person_model (320, 240)) stamped_request
          = ok {| status := 200;
                  body := JDict [("detections", JList ds);
                                 ("count", JInt (Z.of_nat (List.length ds)));
                                 ("timestamp",
                                   match dict_get stamped_fields "timestamp" with
                                   | Some t => t
                                   | None => JNone
                                   end)] |}.
Proof.
  assert (H : Z.max 320 240 <= 640) by (vm_compute; congruence).
  split; [split; [reflexivity|exact H]|].
  exact (stream_matches_detect (E := fixed_size_images (320, 240))
           (person_model (320, 240)) stamped_request stamped_fields
           (JStr "AAAA") (320, 240) eq_refl eq_refl eq_refl H).
Defined.
